(** * Jadwal Piket: weekly duty scheduling

    A shallow embedding of [streamlit_jadwal_piket_app.py]: the calendar
    helpers, the per-day selection (quota tiers, then relaxation), the day
    table, the repair pass with its final assertion, and the multi-week
    loop of [main]. *)

From stdpp Require Import base list gmap strings pretty sorting.

Open Scope string_scope.
Open Scope nat_scope.
Open Scope list_scope.
Open Scope stdpp_scope.

(** ** Exceptions and the error monad *)

Inductive exn :=
  | RuntimeError (msg : string)
  | ValueError (msg : string)
  | KeyError (msg : string)
  | AssertionError (msg : string).

(** [str(e)], as shown by [st.error(str(e))]; a [KeyError] carries the
    [repr] of its key, which is what [str] gives for it. *)
Definition exn_str (e : exn) : string :=
  match e with
  | RuntimeError m | ValueError m | KeyError m | AssertionError m => m
  end.

Inductive result (A : Type) :=
  | Ok (a : A)
  | Raise (e : exn).
Arguments Ok {A} a.
Arguments Raise {A} e.

Global Instance result_ret : MRet result := λ A a, Ok a.
Global Instance result_bind : MBind result := λ A B k m,
  match m with
  | Ok a => k a
  | Raise e => Raise e
  end.

Definition is_ok {A} (r : result A) : bool :=
  match r with Ok _ => true | Raise _ => false end.

(** ** Dates

    A [datetime.date] is its proleptic Gregorian ordinal
    ([date.toordinal()]); adding [timedelta(days=i)] adds [i], and
    [(d - e).days] is the difference of the ordinals. *)

Definition date := Z.

Section dates.
Local Open Scope Z_scope.

Definition weekday (d : date) : Z := (d + 6) `mod` 7.

(** [today + relativedelta(weekday=MO(+1))]: the first Monday on or after
    [today]. *)
Definition monday_near_future (today : date) : date :=
  today + (7 - weekday today) `mod` 7.

Definition DAYS_IN_MONTH : list Z :=
  [-1; 31; 28; 31; 30; 31; 30; 31; 31; 30; 31; 30; 31].
Definition DAYS_BEFORE_MONTH : list Z :=
  [-1; 0; 31; 59; 90; 120; 151; 181; 212; 243; 273; 304; 334].

Definition b2z (b : bool) : Z := if b then 1 else 0.

(** The library's ordinal to (year, month, day) conversion. *)
Definition ord2ymd (ordinal : Z) : Z * Z * Z :=
  let n := ordinal - 1 in
  let n400 := n `div` 146097 in
  let n := n `mod` 146097 in
  let year := n400 * 400 + 1 in
  let n100 := n `div` 36524 in
  let n := n `mod` 36524 in
  let n4 := n `div` 1461 in
  let n := n `mod` 1461 in
  let n1 := n `div` 365 in
  let n := n `mod` 365 in
  let year := year + n100 * 100 + n4 * 4 + n1 in
  if bool_decide (n1 = 4 ∨ n100 = 4) then (year - 1, 12, 31)
  else
    let leapyear := bool_decide (n1 = 3 ∧ (n4 ≠ 24 ∨ n100 = 3)) in
    let month := Z.shiftr (n + 50) 5 in
    let preceding :=
      DAYS_BEFORE_MONTH !!! Z.to_nat month + b2z (bool_decide (2 < month) && leapyear) in
    if bool_decide (n < preceding) then
      let month := month - 1 in
      let preceding :=
        preceding
        - (DAYS_IN_MONTH !!! Z.to_nat month + b2z (bool_decide (month = 2) && leapyear)) in
      (year, month, n - preceding + 1)
    else (year, month, n - preceding + 1).

Definition date_year (d : date) : Z := (ord2ymd d).1.1.
Definition date_month (d : date) : Z := (ord2ymd d).1.2.
Definition date_day (d : date) : Z := (ord2ymd d).2.

Definition HARI_ID : list string :=
  ["Senin"; "Selasa"; "Rabu"; "Kamis"; "Jumat"; "Sabtu"; "Minggu"].
Definition BULAN_ID : list string :=
  ["Januari"; "Februari"; "Maret"; "April"; "Mei"; "Juni";
   "Juli"; "Agustus"; "September"; "Oktober"; "November"; "Desember"].

Definition fmt_tanggal_id (d : date) : string :=
  HARI_ID !!! Z.to_nat (weekday d) +:+ ", " +:+ pretty (date_day d) +:+ " "
  +:+ BULAN_ID !!! Z.to_nat (date_month d - 1) +:+ " " +:+ pretty (date_year d).

End dates.

(** ** Configuration *)

Definition SLOT_TEMPLATE : list string :=
  [ "A1,3,5,7"; "A2,4,6,8"; "A9,11,13,15"; "A 10,12 FG A"; "A 14,16 FG A";
    "B1,3,5,7"; "B2,4,6,8"; "B 9,11,13,15"; "B 10,12 FG B"; "B 14,16 FG B";
    "C1,3,5,7"; "C2,4,6,8"; "C9,11,13,15"; "C 10,12,17 FG C"; "C 14,16,17 FG C";
    "D 1,3,5,FG D"; "D 2,4,6 FG D" ].

(** ** The random generator

    [numpy.random.Generator] is kept abstract: a state, seeding, and the two
    operations the scheduler uses, with the facts numpy guarantees for them:
    [shuffle] permutes its argument and [choice] returns one of its
    elements. *)

Class RandomSource := {
  rng : Type;
  default_rng : Z → rng;
  rng_shuffle : rng → list string → list string * rng;
  rng_choice : rng → list string → string * rng;
  rng_shuffle_perm g l : (rng_shuffle g l).1 ≡ₚ l;
  rng_choice_elem g l : l ≠ [] → (rng_choice g l).1 ∈ l;
}.

(** ** Tables *)

(** A row of [df_people]. *)
Record person := Person { p_Nama : string; p_Team : string }.

(** A row of a day or week table; [Team] is [None] where the left merge
    finds no roster row (NaN). *)
Record row := Row {
  No : nat;
  Nama : string;
  Team : option string;
  Gedung : string;
  Tanggal : date;
}.

Global Instance person_eq_dec : EqDecision person.
Proof. solve_decision. Defined.
Global Instance row_eq_dec : EqDecision row.
Proof. solve_decision. Defined.

(** The order of Python strings, by code point; on UTF-8 bytes it is the
    bytewise order. *)
Definition string_le (a b : string) : Prop := String.leb a b = true.
Global Instance string_le_dec a b : Decision (string_le a b).
Proof. unfold string_le. apply _. Defined.

(** ** Scheduling one week *)

(** The mutable state of one call: the [quota] and [last_day] dicts and the
    generator. *)
Record week_state `{RandomSource} := WeekState {
  quota : gmap string nat;
  last_day : gmap string (option date);
  gen : rng;
}.
Arguments WeekState {_} _ _ _.

Section scheduler.
Context `{RandomSource}.

(** Membership in the national holiday calendar ([d in ID_HOLIDAYS]). *)
Variable ID_HOLIDAYS : date → bool.

Definition workdays_in_week (monday_date : date) : list date :=
  filter (λ d, ID_HOLIDAYS d = false)
         ((λ i : nat, (monday_date + Z.of_nat i)%Z) <$> seq 0 5).

(** The roster and the settings of one call. The two counts come from
    number inputs bounded below by 1; they are natural numbers here. The
    advisory [st.warning] about the minimum head count changes neither the
    state nor the result and is left out. *)
Variable df_people : list person.
Variable orang_per_hari : nat.
Variable max_per_minggu : nat.
Variable larang_berturut : bool.

Definition names : list string := p_Nama <$> df_people.

Definition init_state (g : rng) : week_state :=
  WeekState (list_to_map ((λ n, (n, 0%nat)) <$> names))
            (list_to_map ((λ n, (n, None)) <$> names)) g.

Definition eligible (st : week_state) (nm : string) (d : date) (strict : bool) : bool :=
  if decide (max_per_minggu ≤ quota st !!! nm) then false
  else if larang_berturut && strict &&
          match (last_day st !!! nm : option date) with
          | Some ld => bool_decide ((d - ld)%Z = 1%Z)
          | None => false
          end
  then false
  else true.

Definition with_gen (st : week_state) (g : rng) : week_state :=
  WeekState (quota st) (last_day st) g.

(** The loop [for target_q in range(max_per_minggu)], over the tiers still
    to visit. *)
Fixpoint tier_loop (d : date) (tiers : list nat) (picks : list string)
    (remaining : nat) (st : week_state) : list string * nat * week_state :=
  match tiers with
  | [] => (picks, remaining, st)
  | target_q :: tiers' =>
    if decide (remaining = 0%nat) then (picks, remaining, st)
    else
      let group :=
        filter (λ n, quota st !!! n = target_q ∧ eligible st n d true = true ∧ n ∉ picks)
               names in
      let '(group, g) := rng_shuffle (gen st) group in
      let take_n := length group `min` remaining in
      tier_loop d tiers' (picks ++ take take_n group) (remaining - take_n) (with_gen st g)
  end.

(** The relaxation block: the consecutive-day rule is dropped, the cap is
    kept. *)
Definition relax (picks : list string) (remaining : nat) (st : week_state)
    : list string * nat * week_state :=
  if decide (0 < remaining) then
    let group_relax :=
      filter (λ n, quota st !!! n < max_per_minggu ∧ n ∉ picks) names in
    let '(group_relax, g) := rng_shuffle (gen st) group_relax in
    let take_n := length group_relax `min` remaining in
    (picks ++ take take_n group_relax, remaining - take_n, with_gen st g)
  else (picks, remaining, st).

Definition select_day (st : week_state) (d : date) : list string * nat * week_state :=
  let '(picks, remaining, st) := tier_loop d (seq 0 max_per_minggu) [] orang_per_hari st in
  relax picks remaining st.

Definition shortage_msg (d : date) : string :=
  "Tidak cukup kandidat untuk " +:+ fmt_tanggal_id d +:+ ".".

(** [.merge(df_people, on="Nama", how="left")] for one left row. *)
Definition merge_people (d : date) (l : nat * string * string) : list row :=
  match filter (λ p, p_Nama p = l.1.2) df_people with
  | [] => [Row l.1.1 l.1.2 None l.2 d]
  | ms => (λ p, Row l.1.1 l.1.2 (Some (p_Team p)) l.2 d) <$> ms
  end.

(** The day table: the constructor refuses columns of different lengths. *)
Definition build_day_df (picks : list string) (d : date) : result (list row) :=
  let nos := seq 1 orang_per_hari in
  let namas := take orang_per_hari picks in
  if decide (length nos = length namas ∧ length nos = length SLOT_TEMPLATE) then
    Ok (zip (zip nos namas) SLOT_TEMPLATE ≫= merge_people d)
  else Raise (ValueError "All arrays must be of the same length").

Definition record_pick (d : date) (st : week_state) (nm : string) : week_state :=
  WeekState (<[nm := S (quota st !!! nm)]> (quota st))
            (<[nm := Some d]> (last_day st)) (gen st).

Definition record_picks (d : date) (st : week_state) (picks : list string) : week_state :=
  foldl (record_pick d) st picks.

(** The body of [for d in work_days]. *)
Definition schedule_day (st : week_state) (d : date) : result (list row * week_state) :=
  let '(picks, remaining, st) := select_day st d in
  if decide (0 < remaining) then Raise (RuntimeError (shortage_msg d))
  else
    day_df ← build_day_df picks d;
    Ok (day_df, record_picks d st (take orang_per_hari picks)).

Fixpoint schedule_days (ds : list date) (rows : list (list row)) (st : week_state)
    : result (list (list row) * week_state) :=
  match ds with
  | [] => Ok (rows, st)
  | d :: ds' =>
    '(day_df, st) ← schedule_day st d;
    schedule_days ds' (rows ++ [day_df]) st
  end.

(** [pd.concat(rows, ignore_index=True)]. *)
Definition pd_concat (rows : list (list row)) : result (list row) :=
  match rows with
  | [] => Raise (ValueError "No objects to concatenate")
  | _ => Ok (concat rows)
  end.

(** Roster entries still under the weekly cap at the start of a day. *)
Definition under_cap (st : week_state) : list string :=
  filter (λ n, quota st !!! n < max_per_minggu) names.

(** Roster entries of a tier below [t] that the strict rule admits on [d]. *)
Definition strict_below (t : nat) (st : week_state) (d : date) : list string :=
  filter (λ n, quota st !!! n < t ∧ eligible st n d true = true) names.

(** ** The repair pass *)

Definition count_nama (nm : string) (wdf : list row) : nat :=
  length (filter (λ r, Nama r = nm) wdf).

(** [week_df.groupby("Nama").size()]: one entry per name, keys sorted. *)
Definition groupby_size (wdf : list row) : list (string * Z) :=
  (λ n, (n, Z.of_nat (count_nama n wdf)))
    <$> merge_sort string_le (remove_dups (Nama <$> wdf)).

(** [set(week_df.loc[week_df["Tanggal"] == day, "Nama"])]. *)
Definition used_today (wdf : list row) (day : date) : list string :=
  Nama <$> filter (λ r, Tanggal r = day) wdf.

(** [week_df.index[week_df["Nama"] == nm].tolist()]. *)
Definition rows_of (nm : string) (wdf : list row) : list nat :=
  (filter (λ ir, Nama ir.2 = nm) (imap pair wdf)).*1.

(** [df_people.set_index("Nama").loc[k, "Team"]] stored into one cell: a
    scalar when [k] is a unique key; a repeated key yields a Series, which
    the cell assignment refuses. *)
Definition team_of (k : string) : result string :=
  match filter (λ p, p_Nama p = k) df_people with
  | [p] => Ok (p_Team p)
  | [] => Raise (KeyError ("'" +:+ k +:+ "'"))
  | _ => Raise (ValueError "Incompatible indexer with Series")
  end.

(** The loop [for ridx in rows_nm]. *)
Fixpoint repair_rows (nm : string) (rows_nm : list nat) (over : Z)
    (wdf : list row) (by_person : gmap string Z) (g : rng)
    : result (list row * gmap string Z * rng) :=
  match rows_nm with
  | [] => Ok (wdf, by_person, g)
  | ridx :: rows_nm' =>
    if decide (over ≤ 0)%Z then Ok (wdf, by_person, g)
    else
      match wdf !! ridx with
      | None => Raise (KeyError (pretty ridx))
      | Some r =>
        let candidates :=
          filter (λ k, (k ∉ used_today wdf (Tanggal r))
                       ∧ (default 0 (by_person !! k) < Z.of_nat max_per_minggu)%Z)
                 names in
        match candidates with
        | [] => repair_rows nm rows_nm' over wdf by_person g
        | _ =>
          let '(k, g) := rng_choice g candidates in
          team ← team_of k;
          let wdf := <[ridx := Row (No r) k (Some team) (Gedung r) (Tanggal r)]> wdf in
          let by_person := <[k := (default 0 (by_person !! k) + 1)%Z]> by_person in
          let by_person := <[nm := (by_person !!! nm - 1)%Z]> by_person in
          repair_rows nm rows_nm' (over - 1)%Z wdf by_person g
        end
      end
  end.

(** The loop [for nm in violators]. *)
Fixpoint repair_violators (violators : list string)
    (wdf : list row) (by_person : gmap string Z) (g : rng)
    : result (list row * gmap string Z * rng) :=
  match violators with
  | [] => Ok (wdf, by_person, g)
  | nm :: violators' =>
    let over := (by_person !!! nm - Z.of_nat max_per_minggu)%Z in
    '(wdf, by_person, g) ← repair_rows nm (rows_of nm wdf) over wdf by_person g;
    repair_violators violators' wdf by_person g
  end.

Definition violators_of (wdf : list row) : list string :=
  (filter (λ nc, (Z.of_nat max_per_minggu < nc.2)%Z) (groupby_size wdf)).*1.

Definition repair_pass (wdf : list row) (g : rng)
    : result (list row * gmap string Z * rng) :=
  repair_violators (violators_of wdf) wdf (list_to_map (groupby_size wdf)) g.

(** The closing assertion's condition. *)
Definition cap_holds (wdf : list row) : bool :=
  forallb (λ nc, bool_decide (nc.2 ≤ Z.of_nat max_per_minggu)%Z) (groupby_size wdf).

(** [entropy] is the generator that [np.random.default_rng()] draws from the
    operating system when no seed is given. *)
Definition schedule_one_week (monday_date : date) (random_seed : option Z)
    (entropy : rng) : result (list row) :=
  let work_days := workdays_in_week monday_date in
  let g := match random_seed with
           | None => entropy
           | Some s => default_rng s
           end in
  '(rows, st) ← schedule_days work_days [] (init_state g);
  week_df ← pd_concat rows;
  '(week_df, _, _) ← repair_pass week_df (gen st);
  if cap_holds week_df then Ok week_df
  else Raise (AssertionError "Ada orang > cap mingguan").

End scheduler.

(** ** The page: validation and the multi-week loop of [main] *)

(** What the uploader yields once the file is read and the two columns are
    renamed and trimmed. *)
Inductive upload :=
  | NoFile
  | MissingColumns
  | People (df_people : list person).

Record ui_input := UiInput {
  jumlah_minggu : nat;
  ui_orang_per_hari : nat;
  ui_max_per_minggu : nat;
  ui_larang_berturut : bool;
  seed_value : option Z;
  start_date_choice : date;
  up : upload;
  generate_clicked : bool;
}.

(** The bounds of the sidebar widgets. *)
Definition widget_bounds (inp : ui_input) : Prop :=
  1 ≤ jumlah_minggu inp ≤ 12 ∧ 1 ≤ ui_orang_per_hari inp ≤ 50
  ∧ 1 ≤ ui_max_per_minggu inp ≤ 7
  ∧ match seed_value inp with
    | Some s => (0 ≤ s ≤ 10000000)%Z
    | None => True
    end.

(** The arguments of one call of [schedule_one_week]. *)
Record sched_call := SchedCall {
  c_df_people : list person;
  c_monday_date : date;
  c_orang_per_hari : nat;
  c_max_per_minggu : nat;
  c_larang_berturut : bool;
  c_random_seed : option Z;
}.

(** What one run of the page shows: the [st.error] messages in order, the
    calls of [schedule_one_week] it made, and [all_weeks] when the loop
    completed. *)
Record ui_output := UiOutput {
  st_errors : list string;
  sched_calls : list sched_call;
  all_weeks : option (list (nat * list row));
}.

Section page.
Context `{RandomSource}.
Variable ID_HOLIDAYS : date → bool.

(** The generator the operating system seeds for the [wk]-th week when no
    seed is given. *)
Variable entropy : nat → rng.

Definition week_call (inp : ui_input) (df_people : list person) (wk : nat) : sched_call :=
  SchedCall df_people
    (start_date_choice inp + (Z.of_nat wk - 1) * 7)%Z
    (ui_orang_per_hari inp) (ui_max_per_minggu inp) (ui_larang_berturut inp)
    (match seed_value inp with
     | None => None
     | Some s => Some (s + Z.of_nat wk)%Z
     end).

Definition run_call (c : sched_call) (wk : nat) : result (list row) :=
  schedule_one_week ID_HOLIDAYS (c_df_people c) (c_orang_per_hari c)
    (c_max_per_minggu c) (c_larang_berturut c) (c_monday_date c)
    (c_random_seed c) (entropy wk).

(** The loop [for wk in range(1, jumlah_minggu+1)] inside the [try]: the
    first exception leaves the loop. *)
Fixpoint generate (inp : ui_input) (df_people : list person) (wks : list nat)
    (calls : list sched_call) (weeks : list (nat * list row))
    : list sched_call * result (list (nat * list row)) :=
  match wks with
  | [] => (calls, Ok weeks)
  | wk :: wks' =>
    let c := week_call inp df_people wk in
    match run_call c wk with
    | Ok week_df => generate inp df_people wks' (calls ++ [c]) (weeks ++ [(wk, week_df)])
    | Raise e => (calls ++ [c], Raise e)
    end
  end.

Definition template_msg (orang_per_hari : nat) : string :=
  "Jumlah slot template (" +:+ pretty (length SLOT_TEMPLATE) +:+ ") ≠ orang per hari ("
  +:+ pretty orang_per_hari +:+ "). Sesuaikan dulu.".

Definition main (inp : ui_input) : ui_output :=
  let errs :=
    if decide (weekday (start_date_choice inp) ≠ 0%Z)
    then ["Tanggal mulai harus hari Senin."] else [] in
  match up inp with
  | NoFile => UiOutput errs [] None
  | MissingColumns => UiOutput (errs ++ ["Kolom wajib: Nama, Team"]) [] None
  | People df_people =>
    if decide (¬ NoDup (p_Nama <$> df_people)) then
      UiOutput (errs ++ ["Ada duplikat Nama. Harus unik per orang."]) [] None
    else if decide (length SLOT_TEMPLATE ≠ ui_orang_per_hari inp) then
      UiOutput (errs ++ [template_msg (ui_orang_per_hari inp)]) [] None
    else if generate_clicked inp then
      match generate inp df_people (seq 1 (jumlah_minggu inp)) [] [] with
      | (calls, Ok weeks) => UiOutput errs calls (Some weeks)
      | (calls, Raise e) => UiOutput (errs ++ [exn_str e]) calls None
      end
    else UiOutput errs [] None
  end.

End page.

(** ** A concrete generator

    A counter; [shuffle] rotates by the counter, [choice] indexes by it. *)

Definition counter_shuffle (g : nat) (l : list string) : list string * nat :=
  (rotate g l, S g).

Definition counter_choice (g : nat) (l : list string) : string * nat :=
  (l !!! (g `mod` length l), S g).

Lemma counter_shuffle_perm g l : (counter_shuffle g l).1 ≡ₚ l.
Proof.
  unfold counter_shuffle, rotate. simpl.
  rewrite Permutation_app_comm. by rewrite take_drop.
Qed.

Lemma counter_choice_elem g l : l ≠ [] → (counter_choice g l).1 ∈ l.
Proof.
  intros Hl. unfold counter_choice. simpl.
  apply list_elem_of_lookup_total_2.
  destruct l; [done|]. apply Nat.mod_upper_bound. done.
Qed.

Definition counter_source : RandomSource :=
  {| rng := nat;
     default_rng := Z.to_nat;
     rng_shuffle := counter_shuffle;
     rng_choice := counter_choice;
     rng_shuffle_perm := counter_shuffle_perm;
     rng_choice_elem := counter_choice_elem |}.

(** ** Sample data *)

Definition sample_people (n : nat) : list person :=
  (λ i, Person ("P" +:+ pretty i) ("T" +:+ pretty (i `mod` 3))) <$> seq 1 n.

Definition no_holiday : date → bool := λ _, false.

(** Monday, 6 January 2025. *)
Definition sample_monday : date := 739257%Z.

(** The value of a computation that returned. *)
Definition returned {A} (dflt : A) (r : result A) : A :=
  match r with
  | Ok a => a
  | Raise _ => dflt
  end.

(** The tiers of a Monday for a roster of twenty, two duties a week. *)
Definition sample_tiers : list string * nat * @week_state counter_source :=
  @tier_loop counter_source (sample_people 20) 2 true sample_monday (seq 0 2) [] 17
    (@init_state counter_source (sample_people 20) 0).

(** A roster of seventeen on Tuesday, everybody having served on Monday. *)
Definition sample_tuesday_state : @week_state counter_source :=
  (returned ([], @init_state counter_source (sample_people 17) 0)
     (@schedule_days counter_source (sample_people 17) 17 7 true [sample_monday] []
        (@init_state counter_source (sample_people 17) 0))).2.

Definition sample_relax : list string * nat * @week_state counter_source :=
  @relax counter_source (sample_people 17) 7 [] 17 sample_tuesday_state.

(** A week of five workdays for forty-three people, two duties each. *)
Definition sample_week : result (list row) :=
  @schedule_one_week counter_source no_holiday (sample_people 43) 17 2 true
    sample_monday (Some 42%Z) 0.

(** A calendar whose only holiday is the sample Monday. *)
Definition monday_off : date → bool := λ d, bool_decide (d = sample_monday).

Definition sample_entropy : nat → @rng counter_source := λ _, 0.

(** Two weeks from [start] for a roster of [n], two duties a week each. *)
Definition sample_input (seed : option Z) (n : nat) (start : date) : ui_input :=
  UiInput 2 17 2 true seed start (People (sample_people n)) true.

(** One week from Tuesday, 7 January 2025, for a roster of seventeen. *)
Definition tuesday_input : ui_input :=
  UiInput 1 17 7 true (Some 42%Z) (sample_monday + 1)%Z (People (sample_people 17)) true.

(** A roster that lists "P1" twice. *)
Definition repeated_people : list person := Person "P1" "T9" :: sample_people 16.

(** A full week for a longer roster that lists "P1" twice. *)
Definition repeated_week : result (list row) :=
  @schedule_one_week counter_source no_holiday (Person "P1" "T9" :: sample_people 45)
    17 2 true sample_monday (Some 0%Z) 0.

Definition other_entropy : nat → @rng counter_source := λ wk, 5 + wk.

(** * Facts *)

(** ** Lists *)

Section list_facts.
Context {A : Type}.
Implicit Types l : list A.

Lemma filter_sublist_impl (P Q : A → Prop) `{!∀ x, Decision (P x)} `{!∀ x, Decision (Q x)} l :
  (∀ x, P x → Q x) → filter P l `sublist_of` filter Q l.
Proof.
  intros HPQ. induction l as [|x l IH]; [done|].
  rewrite !filter_cons. destruct (decide (P x)) as [HP|HP].
  - rewrite decide_True by auto. by constructor.
  - destruct (decide (Q x)); [by constructor|done].
Qed.

Lemma filter_split_perm (P Q R : A → Prop) `{!∀ x, Decision (P x)}
    `{!∀ x, Decision (Q x)} `{!∀ x, Decision (R x)} l :
  (∀ x, P x ↔ Q x ∨ R x) → (∀ x, Q x → R x → False) →
  filter P l ≡ₚ filter Q l ++ filter R l.
Proof.
  intros HP Hdisj. induction l as [|x l IH]; [done|].
  rewrite !filter_cons.
  destruct (decide (Q x)) as [HQ|HQ], (decide (R x)) as [HR|HR].
  - destruct (Hdisj x HQ HR).
  - rewrite decide_True by (apply HP; auto). simpl. by rewrite IH.
  - rewrite decide_True by (apply HP; auto).
    rewrite IH. by rewrite Permutation_middle.
  - rewrite decide_False by (rewrite HP; tauto). done.
Qed.

Lemma filter_ext_in (P Q : A → Prop) `{!∀ x, Decision (P x)} `{!∀ x, Decision (Q x)} l :
  (∀ x, x ∈ l → P x ↔ Q x) → filter P l = filter Q l.
Proof.
  induction l as [|x l IH]; intros HPQ; [done|].
  rewrite !filter_cons.
  rewrite IH by (intros y Hy; apply HPQ; by right).
  destruct (decide (P x)) as [HP|HP].
  - rewrite decide_True; [done|]. apply HPQ; [by left|done].
  - rewrite decide_False; [done|]. intros HQ. apply HP, HPQ; [by left|done].
Qed.

End list_facts.

(** ** The selection of one day *)

Section selection_facts.
Context `{RandomSource}.
Variable df_people : list person.
Variable orang_per_hari max_per_minggu : nat.
Variable larang_berturut : bool.

Lemma eligible_ext st1 st2 nm d strict :
  quota st1 = quota st2 → last_day st1 = last_day st2 →
  eligible max_per_minggu larang_berturut st1 nm d strict
  = eligible max_per_minggu larang_berturut st2 nm d strict.
Proof. unfold eligible. by intros -> ->. Qed.

Lemma eligible_under_cap st nm d strict :
  eligible max_per_minggu larang_berturut st nm d strict = true →
  quota st !!! nm < max_per_minggu.
Proof. unfold eligible. case_decide; [done|lia]. Qed.

Abbreviation names := (names df_people).
Abbreviation eligible := (eligible max_per_minggu larang_berturut).
Abbreviation tier_loop := (tier_loop df_people max_per_minggu larang_berturut).
Abbreviation relax := (relax df_people max_per_minggu).
Abbreviation select_day := (select_day df_people orang_per_hari max_per_minggu larang_berturut).

Abbreviation under_cap := (under_cap df_people max_per_minggu).
Abbreviation strict_below := (strict_below df_people max_per_minggu larang_berturut).

Lemma tier_loop_state d tiers picks remaining st picks' remaining' st' :
  tier_loop d tiers picks remaining st = (picks', remaining', st') →
  quota st' = quota st ∧ last_day st' = last_day st.
Proof.
  revert picks remaining st.
  induction tiers as [|t tiers IH]; intros picks remaining st; simpl.
  - by intros [= _ _ ->].
  - case_decide; [by intros [= _ _ ->]|].
    destruct (rng_shuffle _ _) as [group g]. intros Hloop.
    by apply IH in Hloop.
Qed.

(** What a tier loop adds was not picked before. *)
Lemma tier_loop_added d tiers picks remaining st picks' remaining' st' :
  tier_loop d tiers picks remaining st = (picks', remaining', st') →
  ∃ added, picks' = picks ++ added ∧ ∀ n, n ∈ added → (n ∉ picks) ∧ n ∈ names.
Proof.
  revert picks remaining st.
  induction tiers as [|t tiers IH]; intros picks remaining st; simpl.
  - intros [= <- _ _]. exists []. rewrite app_nil_r. split; [done|]. by intros n ?%elem_of_nil.
  - case_decide.
    { intros [= <- _ _]. exists []. rewrite app_nil_r. split; [done|]. by intros n ?%elem_of_nil. }
    pose proof (rng_shuffle_perm (gen st)
      (filter (λ n, quota st !!! n = t ∧ eligible st n d true = true ∧ n ∉ picks) names)) as Hperm.
    destruct (rng_shuffle _ _) as [group g]. simpl in Hperm. intros Hloop.
    apply IH in Hloop as (added & -> & Hadded).
    exists (take (length group `min` remaining) group ++ added).
    rewrite app_assoc. split; [done|].
    intros n [Hn|Hn]%elem_of_app.
    + apply (elem_of_submseteq _ group) in Hn; [|apply sublist_submseteq, sublist_take].
      rewrite Hperm in Hn. apply list_elem_of_filter in Hn. tauto.
    + apply Hadded in Hn as [Hn ?]. split; [|done].
      intros ?. apply Hn. apply elem_of_app. by left.
Qed.

Lemma strict_below_0 st d : strict_below 0 st d = [].
Proof.
  unfold strict_below. induction names as [|n l IH]; [done|].
  rewrite filter_cons. rewrite decide_False by lia. done.
Qed.

Lemma strict_below_S t st d :
  strict_below (S t) st d ≡ₚ
  strict_below t st d
  ++ filter (λ n, quota st !!! n = t ∧ eligible st n d true = true) names.
Proof.
  apply filter_split_perm.
  - intros n. split.
    + intros [Hq He].
      destruct (decide (quota st !!! n = t)); [right|left]; (split; [lia|done]).
    + intros [[? ?]|[? ?]]; (split; [lia|done]).
  - intros n [? _] [? _]. lia.
Qed.

Lemma strict_below_under_cap t st d : strict_below t st d ⊆+ under_cap st.
Proof.
  apply sublist_submseteq, filter_sublist_impl.
  intros n [_ ?]. by eapply eligible_under_cap.
Qed.

Lemma tier_loop_inv d k t0 picks remaining st picks' remaining' st' :
  tier_loop d (seq t0 k) picks remaining st = (picks', remaining', st') →
  picks ⊆+ strict_below t0 st d →
  (0 < remaining → picks ≡ₚ strict_below t0 st d) →
  picks' ⊆+ strict_below (t0 + k) st d
  ∧ (0 < remaining' → picks' ≡ₚ strict_below (t0 + k) st d)
  ∧ length picks' + remaining' = length picks + remaining.
Proof.
  revert t0 picks remaining st.
  induction k as [|k IH]; intros t0 picks remaining st; simpl.
  - intros [= <- <- _]. rewrite Nat.add_0_r. done.
  - case_decide as Hrem.
    { intros [= <- <- _] Hsub _. split_and!; [|lia|done].
      etrans; [done|]. apply sublist_submseteq, filter_sublist_impl.
      intros n [? ?]. split; [lia|done]. }
    intros Hloop Hsub Hperm. specialize (Hperm ltac:(lia)).
    assert (filter (λ n, quota st !!! n = t0 ∧ eligible st n d true = true ∧ n ∉ picks) names
            = filter (λ n, quota st !!! n = t0 ∧ eligible st n d true = true) names) as Hgroup.
    { apply list_filter_iff. intros n. split; [tauto|]. intros [Hq He]. split_and!; [done..|].
      rewrite Hperm. intros [? _]%list_elem_of_filter. lia. }
    rewrite Hgroup in Hloop.
    pose proof (rng_shuffle_perm (gen st)
      (filter (λ n, quota st !!! n = t0 ∧ eligible st n d true = true) names)) as Hshuf.
    destruct (rng_shuffle _ _) as [group g]. simpl in Hshuf.
    pose proof Hloop as Hstate%tier_loop_state. simpl in Hstate.
    apply IH in Hloop.
    + destruct Hloop as (Hsub' & Hperm' & Hlen).
      replace (t0 + S k) with (S t0 + k) by lia.
      split_and!; [done..|].
      rewrite Hlen, length_app, length_take. lia.
    + rewrite strict_below_S. unfold strict_below at 1. simpl.
      rewrite Hperm. apply submseteq_skips_l.
      rewrite <-Hshuf. apply sublist_submseteq, sublist_take.
    + intros Hpos. rewrite strict_below_S. unfold strict_below at 1. simpl.
      rewrite Hperm. apply Permutation_app_head.
      rewrite take_ge by lia. done.
Qed.

Lemma relax_added picks remaining st picks' remaining' st' :
  relax picks remaining st = (picks', remaining', st') →
  quota st' = quota st ∧ last_day st' = last_day st
  ∧ ∃ added, picks' = picks ++ added
      ∧ ∀ n, n ∈ added → quota st !!! n < max_per_minggu ∧ (n ∉ picks) ∧ n ∈ names.
Proof.
  unfold relax. case_decide.
  - pose proof (rng_shuffle_perm (gen st)
      (filter (λ n, quota st !!! n < max_per_minggu ∧ n ∉ picks) names)) as Hperm.
    destruct (rng_shuffle _ _) as [group g]. simpl in Hperm.
    intros [= <- _ <-]. split_and!; [done..|].
    eexists. split; [done|]. intros n Hn.
    apply (elem_of_submseteq _ group) in Hn; [|apply sublist_submseteq, sublist_take].
    rewrite Hperm in Hn. apply list_elem_of_filter in Hn. tauto.
  - intros [= <- _ <-]. split_and!; [done..|].
    exists []. rewrite app_nil_r. split; [done|]. by intros n ?%elem_of_nil.
Qed.

Lemma under_cap_split st d picks :
  picks ≡ₚ strict_below max_per_minggu st d →
  under_cap st ≡ₚ
  picks ++ filter (λ n, quota st !!! n < max_per_minggu ∧ n ∉ picks) names.
Proof.
  intros Hperm.
  rewrite (filter_ext_in (λ n, quota st !!! n < max_per_minggu ∧ n ∉ picks)
             (λ n, quota st !!! n < max_per_minggu ∧ eligible st n d true ≠ true)).
  - rewrite Hperm. apply filter_split_perm.
    + intros n. split.
      * intros Hq. destruct (eligible st n d true) eqn:He; [left|right]; by split.
      * by intros [[? _]|[? _]].
    + intros n [_ ?] [_ ?]. done.
  - intros n Hn. rewrite Hperm. unfold strict_below.
    rewrite list_elem_of_filter. tauto.
Qed.

(** The selection of a day: the picks are roster entries under the cap,
    each taken at most as often as the roster lists it, and the slots left
    open are those the under-cap entries cannot cover. *)
Lemma select_day_spec st d picks remaining st' :
  select_day st d = (picks, remaining, st') →
  picks ⊆+ under_cap st
  ∧ length picks + remaining = orang_per_hari
  ∧ (0 < remaining ↔ length (under_cap st) < orang_per_hari)
  ∧ quota st' = quota st ∧ last_day st' = last_day st.
Proof.
  unfold select_day.
  destruct (tier_loop d _ _ _ _) as [[picks1 rem1] st1] eqn:Hloop.
  pose proof Hloop as [Hq1 Hl1]%tier_loop_state.
  apply tier_loop_inv in Hloop as (Hsub & Hperm & Hlen).
  2:{ by rewrite strict_below_0. }
  2:{ by rewrite strict_below_0. }
  simpl in Hsub, Hperm, Hlen.
  unfold relax. case_decide as Hrem.
  - specialize (Hperm Hrem).
    pose proof (under_cap_split st d picks1 Hperm) as Hsplit.
    rewrite Hq1.
    pose proof (rng_shuffle_perm (gen st1)
      (filter (λ n, quota st !!! n < max_per_minggu ∧ n ∉ picks1) names)) as Hshuf.
    destruct (rng_shuffle _ _) as [group g]. simpl in Hshuf.
    rewrite <-Hshuf in Hsplit.
    intros [= <- <- <-]. simpl.
    pose proof (Permutation_length Hsplit) as Hlen'. rewrite length_app in Hlen'.
    split_and!; [|rewrite length_app, length_take; lia|lia|done..].
    rewrite Hsplit. apply submseteq_skips_l, sublist_submseteq, sublist_take.
  - intros [= <- <- <-].
    assert (picks1 ⊆+ under_cap st) as Hsub'.
    { etrans; [done|]. apply strict_below_under_cap. }
    split_and!; [done|lia| |done..].
    apply submseteq_length in Hsub'. lia.
Qed.

End selection_facts.

(** ** The day table and the recorded counts *)

Section list_key_facts.
Context {A B : Type} `{EqDecision B}.

Lemma filter_nil_forall (P : A → Prop) `{!∀ x, Decision (P x)} (l : list A) :
  (∀ x, x ∈ l → ¬ P x) → filter P l = [].
Proof.
  induction l as [|x l IH]; intros HP; [done|].
  rewrite filter_cons, decide_False by (apply HP; by left).
  apply IH. intros y Hy. apply HP. by right.
Qed.

Lemma filter_unique_key (f : A → B) (l : list A) (x : A) :
  NoDup (f <$> l) → x ∈ l → filter (λ y, f y = f x) l = [x].
Proof.
  induction l as [|a l IH]; intros Hnd Hx; [by apply elem_of_nil in Hx|].
  rewrite fmap_cons in Hnd. apply NoDup_cons in Hnd as [Ha Hnd].
  rewrite filter_cons. apply elem_of_cons in Hx as [->|Hx].
  - rewrite decide_True by done. f_equal.
    apply filter_nil_forall. intros y Hy Heq. apply Ha.
    rewrite <-Heq. by apply list_elem_of_fmap_2.
  - rewrite decide_False; [by apply IH|].
    intros Heq. apply Ha. rewrite Heq. by apply list_elem_of_fmap_2.
Qed.

Lemma bind_singleton_fmap {C} (f : A → list C) (g : A → C) (l : list A) :
  (∀ x, x ∈ l → f x = [g x]) → l ≫= f = g <$> l.
Proof.
  induction l as [|x l IH]; intros Hf; [done|].
  rewrite bind_cons, Hf by (by left). simpl. f_equal.
  apply IH. intros y Hy. apply Hf. by right.
Qed.

End list_key_facts.

Section table_facts.
Context `{RandomSource}.
Variable df_people : list person.
Variable orang_per_hari : nat.

Lemma team_of_unique n :
  NoDup (names df_people) → n ∈ names df_people →
  ∃ p, p_Nama p = n ∧ filter (λ q, p_Nama q = n) df_people = [p].
Proof.
  intros Hnd (p & -> & Hp)%list_elem_of_fmap.
  exists p. split; [done|]. by apply filter_unique_key.
Qed.

Lemma merge_people_unique d l :
  NoDup (names df_people) → l.1.2 ∈ names df_people →
  ∃ team, team_of df_people l.1.2 = Ok team
          ∧ merge_people df_people d l = [Row l.1.1 l.1.2 (Some team) l.2 d].
Proof.
  intros Hnd Hl. destruct (team_of_unique _ Hnd Hl) as (p & Hp & Hfilter).
  exists (p_Team p). unfold team_of, merge_people. by rewrite Hfilter.
Qed.

Lemma merge_people_rows d l r :
  r ∈ merge_people df_people d l →
  No r = l.1.1 ∧ Nama r = l.1.2 ∧ Gedung r = l.2 ∧ Tanggal r = d.
Proof.
  unfold merge_people. destruct (filter _ _) as [|p ms].
  - by intros ->%list_elem_of_singleton.
  - by intros (q & -> & _)%list_elem_of_fmap.
Qed.

(** Every row of a day table carries the day, a picked name and a label of
    the template, whatever the roster. *)
Lemma build_day_df_any picks d day_df :
  build_day_df df_people orang_per_hari picks d = Ok day_df →
  Forall (λ r, Tanggal r = d ∧ Nama r ∈ picks) day_df.
Proof.
  unfold build_day_df. case_decide; [|done]. intros [= <-].
  apply Forall_forall. intros r (l & Hr & Hl)%list_elem_of_bind.
  apply merge_people_rows in Hr as (_ & -> & _ & ->). split; [done|].
  destruct l as [[no nama] gedung]. simpl.
  apply elem_of_zip_l, elem_of_zip_r in Hl.
  eapply elem_of_submseteq; [done|]. apply sublist_submseteq, sublist_take.
Qed.

(** With unique roster names the merge keeps one row per pick, in order. *)
Lemma build_day_df_unique picks d day_df :
  NoDup (names df_people) → (∀ n, n ∈ picks → n ∈ names df_people) →
  length picks = orang_per_hari →
  build_day_df df_people orang_per_hari picks d = Ok day_df →
  length day_df = orang_per_hari
  ∧ Nama <$> day_df = picks
  ∧ ∀ i n, picks !! i = Some n →
      ∃ team gedung, team_of df_people n = Ok team
        ∧ SLOT_TEMPLATE !! i = Some gedung
        ∧ day_df !! i = Some (Row (S i) n (Some team) gedung d).
Proof.
  intros Hnd Hpicks Hlen. unfold build_day_df.
  rewrite take_ge by lia. case_decide as Hcols; [|done].
  rewrite length_seq in Hcols. destruct Hcols as [_ Hslots].
  intros [= <-].
  set (team := λ n, match team_of df_people n with Ok t => Some t | Raise _ => None end).
  set (cols := zip (zip (seq 1 orang_per_hari) picks) SLOT_TEMPLATE).
  rewrite (bind_singleton_fmap _ (λ l, Row l.1.1 l.1.2 (team l.1.2) l.2 d)).
  2:{ intros l Hl.
      destruct (merge_people_unique d l Hnd) as (t & Ht & ->).
      - apply Hpicks. destruct l as [[no nama] gedung].
        by apply elem_of_zip_l, elem_of_zip_r in Hl.
      - unfold team. by rewrite Ht. }
  assert (length cols = orang_per_hari) as Hcols.
  { unfold cols. rewrite !length_zip_with, length_seq. lia. }
  split_and!.
  - by rewrite length_fmap.
  - rewrite <-list_fmap_compose.
    change (Nama ∘ _) with ((snd ∘ fst) : nat * string * string → string).
    rewrite list_fmap_compose. unfold cols.
    rewrite fst_zip by (rewrite length_zip_with, length_seq; lia).
    apply snd_zip. rewrite length_seq. lia.
  - intros i n Hi.
    assert (i < orang_per_hari) as Hlt by (apply lookup_lt_Some in Hi; lia).
    destruct (lookup_lt_is_Some_2 SLOT_TEMPLATE i) as [gedung Hg]; [lia|].
    destruct (merge_people_unique d (S i, n, gedung) Hnd) as (t & Ht & _).
    { apply Hpicks. by eapply list_elem_of_lookup_2. }
    exists t, gedung. split_and!; [done..|].
    rewrite list_lookup_fmap. unfold cols.
    assert (zip (zip (seq 1 orang_per_hari) picks) SLOT_TEMPLATE !! i
            = Some (S i, n, gedung)) as ->.
    { apply lookup_zip_with_Some. exists (S i, n), gedung. split_and!; [done| |done].
      apply lookup_zip_with_Some. exists (S i), n. split_and!; [done| |done].
      apply lookup_seq. lia. }
    simpl. unfold team. simpl in Ht. by rewrite Ht.
Qed.

Lemma record_picks_gen d st picks : gen (record_picks d st picks) = gen st.
Proof.
  revert st. induction picks as [|n picks IH]; intros st; [done|].
  simpl. by rewrite IH.
Qed.

(** Recording raises each count by the number of times the person was
    picked. *)
Lemma record_picks_quota d st picks n :
  quota (record_picks d st picks) !!! n
  = quota st !!! n + length (filter (λ m, m = n) picks).
Proof.
  revert st. induction picks as [|m picks IH]; intros st; simpl; [lia|].
  rewrite IH, filter_cons. simpl.
  destruct (decide (m = n)) as [->|Hne].
  - rewrite lookup_total_insert_eq. simpl. lia.
  - rewrite lookup_total_insert_ne by done. lia.
Qed.

End table_facts.

(** ** The loop over the workdays *)

Section count_facts.
Context {A : Type} `{EqDecision A}.

Lemma submseteq_NoDup (l k : list A) : l ⊆+ k → NoDup k → NoDup l.
Proof.
  intros (k' & Hk)%submseteq_Permutation Hnd.
  rewrite Hk in Hnd. by apply NoDup_app in Hnd as [? _].
Qed.

Lemma NoDup_occurrences (l : list A) (x : A) :
  NoDup l → length (filter (λ y, y = x) l) = if decide (x ∈ l) then 1 else 0.
Proof.
  induction 1 as [|y l Hy Hnd IH]; [done|].
  rewrite filter_cons. destruct (decide (y = x)) as [->|Hne].
  - simpl. rewrite IH. rewrite decide_False by done.
    rewrite decide_True by (by left). done.
  - rewrite IH. destruct (decide (x ∈ l)) as [Hx|Hx].
    + rewrite decide_True by (by right). done.
    + rewrite decide_False; [done|]. intros [?|?]%elem_of_cons; by subst.
Qed.

End count_facts.

Lemma count_nama_fmap n wdf :
  count_nama n wdf = length (filter (λ m, m = n) (Nama <$> wdf)).
Proof.
  unfold count_nama. induction wdf as [|r wdf IH]; [done|].
  rewrite fmap_cons, !filter_cons.
  destruct (decide (Nama r = n)); simpl; by rewrite IH.
Qed.

Lemma count_nama_app n wdf1 wdf2 :
  count_nama n (wdf1 ++ wdf2) = count_nama n wdf1 + count_nama n wdf2.
Proof. unfold count_nama. by rewrite filter_app, length_app. Qed.

Section week_facts.
Context `{RandomSource}.
Variable df_people : list person.
Variable orang_per_hari max_per_minggu : nat.
Variable larang_berturut : bool.

Lemma schedule_day_inv st d day_df st' :
  schedule_day df_people orang_per_hari max_per_minggu larang_berturut st d
    = Ok (day_df, st') →
  ∃ picks st1,
    select_day df_people orang_per_hari max_per_minggu larang_berturut st d
      = (picks, 0, st1)
    ∧ length picks = orang_per_hari
    ∧ build_day_df df_people orang_per_hari picks d = Ok day_df
    ∧ st' = record_picks d st1 picks.
Proof.
  unfold schedule_day.
  destruct (select_day _ _ _ _ _ _) as [[picks remaining] st1] eqn:Hsel.
  case_decide as Hrem; [done|].
  destruct (build_day_df _ _ _ _) as [df|e] eqn:Hdf; [|done].
  intros [= <- <-]. assert (remaining = 0) as -> by lia.
  apply select_day_spec in Hsel as (_ & Hlen & _).
  exists picks, st1. rewrite take_ge by lia. split_and!; [done|lia|done..].
Qed.

(** The loop body raises the shortage error exactly when the selection
    leaves a slot open. *)
Lemma schedule_day_shortage st d :
  schedule_day df_people orang_per_hari max_per_minggu larang_berturut st d
    = Raise (RuntimeError (shortage_msg d))
  ↔ 0 < (select_day df_people orang_per_hari max_per_minggu larang_berturut st d).1.2.
Proof.
  unfold schedule_day.
  destruct (select_day _ _ _ _ _ _) as [[picks remaining] st1]. simpl.
  case_decide as Hrem; [done|]. split; [|lia].
  unfold build_day_df. case_decide; done.
Qed.

Lemma schedule_days_acc ds rows st :
  schedule_days df_people orang_per_hari max_per_minggu larang_berturut ds rows st
  = match schedule_days df_people orang_per_hari max_per_minggu larang_berturut ds [] st with
    | Ok (new, st') => Ok (rows ++ new, st')
    | Raise e => Raise e
    end.
Proof.
  revert rows st. induction ds as [|d ds IH]; intros rows st; simpl.
  - by rewrite app_nil_r.
  - destruct (schedule_day _ _ _ _ _ _) as [[df st1]|e]; simpl; [|done].
    rewrite (IH (rows ++ [df])), (IH [df]).
    destruct (schedule_days _ _ _ _ _ _ _) as [[new st']|e]; [|done].
    by rewrite <-app_assoc.
Qed.

Lemma schedule_days_cons d ds st :
  schedule_days df_people orang_per_hari max_per_minggu larang_berturut (d :: ds) [] st
  = match schedule_day df_people orang_per_hari max_per_minggu larang_berturut st d with
    | Ok (day_df, st1) =>
      match schedule_days df_people orang_per_hari max_per_minggu larang_berturut ds [] st1 with
      | Ok (new, st') => Ok (day_df :: new, st')
      | Raise e => Raise e
      end
    | Raise e => Raise e
    end.
Proof.
  simpl. destruct (schedule_day _ _ _ _ _ _) as [[df st1]|e]; simpl; [|done].
  by rewrite schedule_days_acc.
Qed.

Lemma schedule_days_app ds1 ds2 st :
  schedule_days df_people orang_per_hari max_per_minggu larang_berturut (ds1 ++ ds2) [] st
  = match schedule_days df_people orang_per_hari max_per_minggu larang_berturut ds1 [] st with
    | Ok (rows1, st1) =>
      match schedule_days df_people orang_per_hari max_per_minggu larang_berturut ds2 [] st1 with
      | Ok (rows2, st2) => Ok (rows1 ++ rows2, st2)
      | Raise e => Raise e
      end
    | Raise e => Raise e
    end.
Proof.
  revert st. induction ds1 as [|d ds1 IH]; intros st.
  - simpl. by destruct (schedule_days _ _ _ _ _ _ _) as [[??]|].
  - rewrite <-app_comm_cons, !schedule_days_cons.
    destruct (schedule_day _ _ _ _ _ _) as [[df st1]|e]; [|done].
    rewrite IH.
    destruct (schedule_days _ _ _ _ ds1 _ _) as [[rows1 st1']|e]; [|done].
    by destruct (schedule_days _ _ _ _ ds2 _ _) as [[rows2 st2]|e].
Qed.

Lemma schedule_days_length ds st rows st' :
  schedule_days df_people orang_per_hari max_per_minggu larang_berturut ds [] st
    = Ok (rows, st') →
  length rows = length ds.
Proof.
  revert st rows st'. induction ds as [|d ds IH]; intros st rows st'.
  - by intros [= <- _].
  - rewrite schedule_days_cons.
    destruct (schedule_day _ _ _ _ _ _) as [[df st1]|e]; [|done].
    destruct (schedule_days _ _ _ _ _ _ _) as [[new st2]|e] eqn:Hds; [|done].
    intros [= <- _]. simpl. f_equal. by eapply IH.
Qed.

(** With unique roster names a scheduled day gives a table of
    [orang_per_hari] rows for distinct people, and each of them is counted
    once. *)
Lemma schedule_day_unique st d day_df st' :
  NoDup (names df_people) →
  schedule_day df_people orang_per_hari max_per_minggu larang_berturut st d
    = Ok (day_df, st') →
  length day_df = orang_per_hari
  ∧ NoDup (Nama <$> day_df)
  ∧ Forall (λ r, Tanggal r = d) day_df
  ∧ (∀ n, quota st' !!! n = quota st !!! n + count_nama n day_df)
  ∧ ((∀ n, quota st !!! n ≤ max_per_minggu) → ∀ n, quota st' !!! n ≤ max_per_minggu).
Proof.
  intros Hnd (picks & st1 & Hsel & Hlen & Hdf & ->)%schedule_day_inv.
  apply select_day_spec in Hsel as (Hsub & _ & _ & Hq & _).
  assert (NoDup picks) as Hpicks.
  { eapply submseteq_NoDup; [done|]. by apply NoDup_filter. }
  assert (∀ n, n ∈ picks → quota st !!! n < max_per_minggu ∧ n ∈ names df_people) as Hin.
  { intros n Hn. eapply elem_of_submseteq in Hn; [|done].
    by apply list_elem_of_filter in Hn. }
  pose proof (build_day_df_any _ _ _ _ _ Hdf) as Hany.
  apply build_day_df_unique in Hdf as (Hrows & Hnama & _);
    [|done|by intros n [_ ?]%Hin|done].
  assert (∀ n, quota (record_picks d st1 picks) !!! n
               = quota st !!! n + count_nama n day_df) as Hcount.
  { intros n. by rewrite record_picks_quota, Hq, count_nama_fmap, Hnama. }
  split_and!; [done|by rewrite Hnama| |done|].
  - eapply Forall_impl; [done|]. by intros r [? _].
  - intros Hcap n. rewrite Hcount, count_nama_fmap, Hnama, NoDup_occurrences by done.
    case_decide as Hn; [|specialize (Hcap n); lia].
    apply Hin in Hn as [? _]. lia.
Qed.

Lemma schedule_days_unique ds st rows st' :
  NoDup (names df_people) →
  schedule_days df_people orang_per_hari max_per_minggu larang_berturut ds [] st
    = Ok (rows, st') →
  Forall2 (λ d day_df, length day_df = orang_per_hari
                       ∧ NoDup (Nama <$> day_df)
                       ∧ Forall (λ r, Tanggal r = d) day_df) ds rows
  ∧ (∀ n, quota st' !!! n = quota st !!! n + count_nama n (concat rows))
  ∧ ((∀ n, quota st !!! n ≤ max_per_minggu) → ∀ n, quota st' !!! n ≤ max_per_minggu).
Proof.
  intros Hnd. revert st rows st'.
  induction ds as [|d ds IH]; intros st rows st'.
  - intros [= <- <-]. split_and!; [constructor| |done].
    intros n. unfold count_nama. simpl. lia.
  - rewrite schedule_days_cons.
    destruct (schedule_day _ _ _ _ _ _) as [[df st1]|e] eqn:Hday; [|done].
    destruct (schedule_days _ _ _ _ _ _ _) as [[new st2]|e] eqn:Hds; [|done].
    intros [= <- <-].
    apply schedule_day_unique in Hday as (Hlen & Hdistinct & Hdate & Hq & Hcap); [|done].
    apply IH in Hds as (Htables & Hq' & Hcap').
    split_and!.
    + constructor; done.
    + intros n. rewrite Hq', Hq. simpl. rewrite count_nama_app. lia.
    + auto.
Qed.

End week_facts.

(** ** Counting per person and the repair pass *)

Lemma count_nama_absent n wdf : n ∉ Nama <$> wdf → count_nama n wdf = 0.
Proof.
  intros Hn. unfold count_nama. rewrite filter_nil_forall; [done|].
  intros r Hr <-. apply Hn. by apply list_elem_of_fmap_2.
Qed.

Lemma groupby_size_elem wdf n c :
  (n, c) ∈ groupby_size wdf ↔ n ∈ Nama <$> wdf ∧ c = Z.of_nat (count_nama n wdf).
Proof.
  unfold groupby_size. rewrite list_elem_of_fmap. split.
  - intros (m & [= -> ->] & Hm).
    rewrite merge_sort_Permutation, elem_of_remove_dups in Hm. done.
  - intros [Hn ->]. exists n. split; [done|].
    by rewrite merge_sort_Permutation, elem_of_remove_dups.
Qed.

(** The closing assertion holds exactly when nobody exceeds the cap. *)
Lemma cap_holds_spec max_per_minggu wdf :
  cap_holds max_per_minggu wdf = true ↔ ∀ n, count_nama n wdf ≤ max_per_minggu.
Proof.
  unfold cap_holds. rewrite <-Is_true_true, forallb_True, Forall_forall. split.
  - intros Hall n. destruct (decide (n ∈ Nama <$> wdf)) as [Hn|Hn].
    + specialize (Hall (n, Z.of_nat (count_nama n wdf))).
      rewrite groupby_size_elem in Hall. specialize (Hall (conj Hn eq_refl)).
      apply bool_decide_unpack in Hall. simpl in Hall. lia.
    + rewrite count_nama_absent by done. lia.
  - intros Hcap [n c] [_ ->]%groupby_size_elem.
    apply bool_decide_pack. simpl. specialize (Hcap n). lia.
Qed.

Lemma violators_of_nil max_per_minggu wdf :
  (∀ n, count_nama n wdf ≤ max_per_minggu) → violators_of max_per_minggu wdf = [].
Proof.
  intros Hcap. unfold violators_of. rewrite filter_nil_forall; [done|].
  intros [n c] [_ ->]%groupby_size_elem. simpl. specialize (Hcap n). lia.
Qed.

Lemma used_today_middle l1 l2 r k team day :
  k ∉ used_today (l1 ++ r :: l2) (Tanggal r) →
  (NoDup (used_today (l1 ++ r :: l2) day)
   → NoDup (used_today (l1 ++ Row (No r) k team (Gedung r) (Tanggal r) :: l2) day))
  ∧ length (used_today (l1 ++ Row (No r) k team (Gedung r) (Tanggal r) :: l2) day)
    = length (used_today (l1 ++ r :: l2) day).
Proof.
  unfold used_today.
  rewrite !filter_app, !filter_cons, !fmap_app. simpl.
  rewrite decide_True by done. intros Hk.
  destruct (decide (Tanggal r = day)) as [<-|Hne]; [|done].
  rewrite !fmap_cons, !length_app. simpl. split; [|done].
  rewrite !NoDup_app, !NoDup_cons. intros (Hnd1 & Hdisj & Hr' & Hnd2).
  rewrite fmap_cons, elem_of_app, elem_of_cons in Hk.
  split_and!; [done| |tauto|done].
  intros n Hn [->|Hn']%elem_of_cons; [tauto|].
  apply (Hdisj n Hn). by right.
Qed.

(** Overwriting the name of one row by a person not yet on that row's day
    keeps every day's people distinct and as many. *)
Lemma used_today_replace wdf ridx r k team day :
  wdf !! ridx = Some r →
  k ∉ used_today wdf (Tanggal r) →
  let wdf' := <[ridx := Row (No r) k team (Gedung r) (Tanggal r)]> wdf in
  (NoDup (used_today wdf day) → NoDup (used_today wdf' day))
  ∧ length (used_today wdf' day) = length (used_today wdf day).
Proof.
  intros Hr Hk wdf'. subst wdf'.
  rewrite insert_take_drop by (by eapply lookup_lt_Some).
  pose proof (used_today_middle (take ridx wdf) (drop (S ridx) wdf) r k team day) as Hmid.
  rewrite take_drop_middle in Hmid by done. by apply Hmid.
Qed.

Section repair_facts.
Context `{RandomSource}.
Variable df_people : list person.
Variable max_per_minggu : nat.

Lemma repair_rows_days nm rows_nm over wdf by_person g wdf' by_person' g' :
  repair_rows df_people max_per_minggu nm rows_nm over wdf by_person g
    = Ok (wdf', by_person', g') →
  ∀ day, (NoDup (used_today wdf day) → NoDup (used_today wdf' day))
         ∧ length (used_today wdf' day) = length (used_today wdf day).
Proof.
  revert over wdf by_person g.
  induction rows_nm as [|ridx rows_nm IH]; intros over wdf by_person g; simpl.
  - by intros [= <- _ _].
  - case_decide; [by intros [= <- _ _]|].
    destruct (wdf !! ridx) as [r|] eqn:Hr; [|done].
    destruct (filter _ _) as [|k0 ks] eqn:Hcand; [by apply IH|].
    pose proof (rng_choice_elem g (k0 :: ks) ltac:(done)) as Hk.
    destruct (rng_choice g (k0 :: ks)) as [k g1]. simpl in Hk.
    rewrite <-Hcand in Hk. apply list_elem_of_filter in Hk as [[Hk _] _].
    destruct (team_of df_people k) as [team|e]; [|done]. simpl.
    intros Hrest day. destruct (IH _ _ _ _ Hrest day) as [Hnd' Hlen'].
    destruct (used_today_replace wdf ridx r k (Some team) day Hr Hk) as (Hnd & Hlen).
    split; [auto|lia].
Qed.

Lemma repair_violators_days violators wdf by_person g wdf' by_person' g' :
  repair_violators df_people max_per_minggu violators wdf by_person g
    = Ok (wdf', by_person', g') →
  ∀ day, (NoDup (used_today wdf day) → NoDup (used_today wdf' day))
         ∧ length (used_today wdf' day) = length (used_today wdf day).
Proof.
  revert wdf by_person g.
  induction violators as [|nm violators IH]; intros wdf by_person g; simpl.
  - by intros [= <- _ _].
  - destruct (repair_rows _ _ _ _ _ _ _ _) as [[[wdf1 by1] g1]|e] eqn:Hrows; [|done].
    simpl. intros Hrest day.
    destruct (repair_rows_days _ _ _ _ _ _ _ _ _ Hrows day) as [Hnd Hlen].
    destruct (IH _ _ _ Hrest day) as [Hnd' Hlen'].
    split; [auto|lia].
Qed.

(** The repair pass keeps, for every day, the number of people and their
    distinctness. *)
Lemma repair_pass_days wdf g wdf' by_person' g' :
  repair_pass df_people max_per_minggu wdf g = Ok (wdf', by_person', g') →
  ∀ day, (NoDup (used_today wdf day) → NoDup (used_today wdf' day))
         ∧ length (used_today wdf' day) = length (used_today wdf day).
Proof. apply repair_violators_days. Qed.

(** Without a violator the repair pass leaves the table as it is. *)
Lemma repair_pass_no_violator wdf g :
  (∀ n, count_nama n wdf ≤ max_per_minggu) →
  repair_pass df_people max_per_minggu wdf g
  = Ok (wdf, list_to_map (groupby_size wdf), g).
Proof. intros Hcap. unfold repair_pass. by rewrite violators_of_nil. Qed.

End repair_facts.

(** ** One week *)

Lemma workdays_in_week_NoDup ID_HOLIDAYS monday_date :
  NoDup (workdays_in_week ID_HOLIDAYS monday_date).
Proof.
  unfold workdays_in_week. apply NoDup_filter.
  apply NoDup_fmap_2_strong; [|apply NoDup_seq].
  intros i j _ _. lia.
Qed.

Lemma workdays_in_week_range ID_HOLIDAYS monday_date d :
  d ∈ workdays_in_week ID_HOLIDAYS monday_date →
  (monday_date ≤ d ≤ monday_date + 4)%Z ∧ ID_HOLIDAYS d = false.
Proof.
  unfold workdays_in_week.
  intros [Hd (i & -> & Hi)%list_elem_of_fmap]%list_elem_of_filter.
  apply elem_of_seq in Hi. split; [lia|done].
Qed.

Lemma filter_all_forall {A} (P : A → Prop) `{!∀ x, Decision (P x)} (l : list A) :
  Forall P l → filter P l = l.
Proof.
  induction 1 as [|x l Hx _ IH]; [done|].
  by rewrite filter_cons, decide_True, IH.
Qed.

Lemma concat_rows_date (ds : list date) (rows : list (list row)) r :
  Forall2 (λ d day_df, Forall (λ r, Tanggal r = d) day_df) ds rows →
  r ∈ concat rows → Tanggal r ∈ ds.
Proof.
  induction 1 as [|d df ds rows Hdf _ IH]; simpl; [by intros ?%elem_of_nil|].
  intros [Hr|Hr]%elem_of_app.
  - rewrite Forall_forall in Hdf. rewrite (Hdf r Hr). by left.
  - right. by apply IH.
Qed.

(** In the concatenated table the rows of a day are that day's table. *)
Lemma used_today_concat (ds : list date) (rows : list (list row)) j d day_df :
  Forall2 (λ d day_df, Forall (λ r, Tanggal r = d) day_df) ds rows →
  NoDup ds → ds !! j = Some d → rows !! j = Some day_df →
  used_today (concat rows) d = Nama <$> day_df.
Proof.
  unfold used_today. intros Hrows. revert j.
  induction Hrows as [|d0 df0 ds rows Hdf Hrows IH]; intros j Hnd Hd Hdf'; [done|].
  apply NoDup_cons in Hnd as [Hd0 Hnd]. simpl. rewrite filter_app.
  destruct j as [|j]; simpl in Hd, Hdf'.
  - injection Hd as ->. injection Hdf' as ->.
    rewrite (filter_nil_forall _ (concat rows)), app_nil_r.
    + by rewrite filter_all_forall.
    + intros r Hr Heq. apply Hd0. rewrite <-Heq. by eapply concat_rows_date.
  - rewrite (filter_nil_forall _ df0).
    + simpl. by eapply IH.
    + rewrite Forall_forall in Hdf. intros r Hr Heq. apply Hd0.
      rewrite <-(Hdf r Hr), Heq. by eapply list_elem_of_lookup_2.
Qed.

Section one_week_facts.
Context `{RandomSource}.
Variable ID_HOLIDAYS : date → bool.
Variable df_people : list person.
Variable orang_per_hari max_per_minggu : nat.
Variable larang_berturut : bool.

Lemma init_state_quota g n : quota (init_state df_people g) !!! n = 0.
Proof.
  unfold init_state. simpl. rewrite lookup_total_alt.
  destruct (list_to_map _ !! n) as [c|] eqn:Hc; [|done].
  apply elem_of_list_to_map_2, list_elem_of_fmap in Hc as (m & [= _ ->] & _).
  done.
Qed.

(** The two dicts have a key for every roster name, and recording keeps
    the keys: the reads [quota[nm]] and [last_day[nm]] never miss. *)
Lemma init_state_keys g n :
  n ∈ names df_people →
  is_Some (quota (init_state df_people g) !! n)
  ∧ is_Some (last_day (init_state df_people g) !! n).
Proof.
  intros Hn. unfold init_state. simpl.
  split; apply not_eq_None_Some; rewrite <-not_elem_of_list_to_map;
    intros Hkey; apply Hkey; rewrite <-list_fmap_compose;
    apply list_elem_of_fmap; by exists n.
Qed.

Lemma record_picks_keys d st picks n :
  is_Some (quota st !! n) ∧ is_Some (last_day st !! n) →
  is_Some (quota (record_picks d st picks) !! n)
  ∧ is_Some (last_day (record_picks d st picks) !! n).
Proof.
  revert st. induction picks as [|m picks IH]; intros st [Hq Hl]; [done|].
  simpl. apply IH. simpl. rewrite !lookup_insert_is_Some'. auto.
Qed.

Lemma init_state_last_day g n : last_day (init_state df_people g) !!! n = None.
Proof.
  unfold init_state. simpl. rewrite lookup_total_alt.
  destruct (list_to_map _ !! n) as [c|] eqn:Hc; [|done].
  apply elem_of_list_to_map_2, list_elem_of_fmap in Hc as (m & [= _ ->] & _).
  done.
Qed.

(** A week that returns went through the loop, the concatenation, the
    repair pass and the assertion. *)
Lemma schedule_one_week_inv monday_date random_seed entropy week_df :
  schedule_one_week ID_HOLIDAYS df_people orang_per_hari max_per_minggu
    larang_berturut monday_date random_seed entropy = Ok week_df →
  ∃ g rows st by_person g',
    g = match random_seed with None => entropy | Some s => default_rng s end
    ∧ schedule_days df_people orang_per_hari max_per_minggu larang_berturut
        (workdays_in_week ID_HOLIDAYS monday_date) [] (init_state df_people g)
      = Ok (rows, st)
    ∧ rows ≠ []
    ∧ repair_pass df_people max_per_minggu (concat rows) (gen st)
      = Ok (week_df, by_person, g')
    ∧ cap_holds max_per_minggu week_df = true.
Proof.
  unfold schedule_one_week.
  destruct (schedule_days _ _ _ _ _ _ _) as [[rows st]|e] eqn:Hdays; [|done]. simpl.
  destruct rows as [|df rows]; [done|]. simpl.
  destruct (repair_pass _ _ _ _) as [[[wdf by_person] g']|e] eqn:Hrepair; [|done]. simpl.
  destruct (cap_holds _ _) eqn:Hcap; [|done]. intros [= <-].
  eexists _, _, _, _, _. split_and!; done.
Qed.

(** With unique roster names the week table is the concatenation of the
    day tables: nobody is over the cap and the repair pass changes
    nothing. *)
Lemma schedule_one_week_unique monday_date random_seed entropy week_df :
  NoDup (names df_people) →
  schedule_one_week ID_HOLIDAYS df_people orang_per_hari max_per_minggu
    larang_berturut monday_date random_seed entropy = Ok week_df →
  ∃ rows st,
    schedule_days df_people orang_per_hari max_per_minggu larang_berturut
      (workdays_in_week ID_HOLIDAYS monday_date) []
      (init_state df_people
         match random_seed with None => entropy | Some s => default_rng s end)
    = Ok (rows, st)
    ∧ week_df = concat rows.
Proof.
  intros Hnd (g & rows & st & by_person & g' & -> & Hdays & _ & Hrepair & _)%schedule_one_week_inv.
  exists rows, st. split; [done|].
  apply schedule_days_unique in Hdays as (_ & Hcount & Hcap); [|done].
  rewrite repair_pass_no_violator in Hrepair; [by injection Hrepair|].
  intros n. specialize (Hcount n). rewrite init_state_quota in Hcount.
  assert (quota st !!! n ≤ max_per_minggu); [|lia].
  apply Hcap. intros m. rewrite init_state_quota. lia.
Qed.

End one_week_facts.

(** ** The page *)

Section page_facts.
Context `{RandomSource}.
Variable ID_HOLIDAYS : date → bool.

(** A seeded call does not look at the operating system's entropy. *)
Lemma run_call_seeded entropy1 entropy2 c wk s :
  c_random_seed c = Some s →
  run_call ID_HOLIDAYS entropy1 c wk = run_call ID_HOLIDAYS entropy2 c wk.
Proof. unfold run_call, schedule_one_week. by intros ->. Qed.

Lemma generate_seeded entropy1 entropy2 inp df_people wks calls weeks s :
  seed_value inp = Some s →
  generate ID_HOLIDAYS entropy1 inp df_people wks calls weeks
  = generate ID_HOLIDAYS entropy2 inp df_people wks calls weeks.
Proof.
  intros Hseed. revert calls weeks.
  induction wks as [|wk wks IH]; intros calls weeks; simpl; [done|].
  rewrite (run_call_seeded entropy1 entropy2 _ _ (s + Z.of_nat wk)%Z).
  - destruct (run_call _ _ _ _); [apply IH|done].
  - unfold week_call. simpl. by rewrite Hseed.
Qed.

Lemma main_seeded entropy1 entropy2 inp s :
  seed_value inp = Some s →
  main ID_HOLIDAYS entropy1 inp = main ID_HOLIDAYS entropy2 inp.
Proof.
  intros Hseed. unfold main. destruct (up inp) as [| |df_people]; [done..|].
  destruct (decide (¬ NoDup _)); [done|].
  destruct (decide (length _ ≠ _)); [done|].
  destruct (generate_clicked inp); [|done].
  by rewrite (generate_seeded entropy1 entropy2 _ _ _ _ _ s).
Qed.

(** A loop that completes called every week and kept every table. *)
Lemma generate_ok entropy inp df_people wks calls weeks calls' weeks' :
  generate ID_HOLIDAYS entropy inp df_people wks calls weeks = (calls', Ok weeks') →
  calls' = calls ++ (week_call inp df_people <$> wks)
  ∧ ∃ tables,
      weeks' = weeks ++ zip wks tables
      ∧ Forall2 (λ wk week_df,
                   run_call ID_HOLIDAYS entropy (week_call inp df_people wk) wk
                   = Ok week_df) wks tables.
Proof.
  revert calls weeks. induction wks as [|wk wks IH]; intros calls weeks; simpl.
  - intros [= <- <-]. rewrite app_nil_r. split; [done|].
    exists []. by rewrite app_nil_r.
  - destruct (run_call _ _ _ _) as [week_df|e] eqn:Hcall; [|done].
    intros (-> & tables & -> & Htables)%IH. rewrite <-app_assoc. split; [done|].
    exists (week_df :: tables). rewrite <-app_assoc. split; [done|].
    by constructor.
Qed.

(** A loop that raises stops at the first week that raises. *)
Lemma generate_raise entropy inp df_people wks calls weeks calls' e :
  generate ID_HOLIDAYS entropy inp df_people wks calls weeks = (calls', Raise e) →
  ∃ pre wk post,
    wks = pre ++ wk :: post
    ∧ calls' = calls ++ (week_call inp df_people <$> pre ++ [wk])
    ∧ run_call ID_HOLIDAYS entropy (week_call inp df_people wk) wk = Raise e.
Proof.
  revert calls weeks. induction wks as [|wk wks IH]; intros calls weeks; simpl; [done|].
  destruct (run_call _ _ _ _) as [week_df|e'] eqn:Hcall.
  - intros (pre & wk' & post & -> & -> & Hraise)%IH.
    exists (wk :: pre), wk', post. rewrite <-app_assoc. done.
  - intros [= <- <-]. exists [], wk, wks. done.
Qed.

Lemma generate_first_raise entropy inp df_people pre wk post calls weeks e :
  Forall (λ wk', is_ok (run_call ID_HOLIDAYS entropy (week_call inp df_people wk') wk')
                 = true) pre →
  run_call ID_HOLIDAYS entropy (week_call inp df_people wk) wk = Raise e →
  generate ID_HOLIDAYS entropy inp df_people (pre ++ wk :: post) calls weeks
  = (calls ++ (week_call inp df_people <$> pre ++ [wk]), Raise e).
Proof.
  intros Hpre Hraise. revert calls weeks.
  induction Hpre as [|wk' pre Hok _ IH]; intros calls weeks; simpl.
  - by rewrite Hraise.
  - destruct (run_call _ _ _ wk') as [week_df|]; [|done].
    rewrite IH, <-app_assoc. done.
Qed.

(** The page calls the scheduler only on a roster of distinct names, with
    as many people per day as the template has slots, week after week. *)
Lemma main_calls entropy inp i c :
  sched_calls (main ID_HOLIDAYS entropy inp) !! i = Some c →
  ∃ df_people,
    up inp = People df_people
    ∧ NoDup (names df_people)
    ∧ length SLOT_TEMPLATE = ui_orang_per_hari inp
    ∧ generate_clicked inp = true
    ∧ i < jumlah_minggu inp
    ∧ c = week_call inp df_people (S i).
Proof.
  unfold main. destruct (up inp) as [| |df_people]; [done..|].
  destruct (decide (¬ NoDup _)) as [|Hdup]; [done|].
  destruct (decide (length _ ≠ _)) as [|Hlen]; [done|].
  destruct (generate_clicked inp); [|done].
  apply dec_stable in Hdup. apply dec_stable in Hlen.
  destruct (generate _ _ _ _ _ _ _) as [calls [weeks|e]] eqn:Hgen; simpl; intros Hc.
  - apply generate_ok in Hgen as [-> _]. simpl in Hc.
    rewrite list_lookup_fmap in Hc.
    destruct (seq 1 _ !! i) as [wk|] eqn:Hwk; [|done].
    apply lookup_seq in Hwk as [-> ?]. injection Hc as <-.
    exists df_people. done.
  - apply generate_raise in Hgen as (pre & wk & post & Hwks & -> & _). simpl in Hc.
    assert ((week_call inp df_people <$> seq 1 (jumlah_minggu inp)) !! i = Some c) as Hc'.
    { rewrite Hwks, cons_middle, app_assoc, fmap_app.
      by apply lookup_app_l_Some. }
    rewrite list_lookup_fmap in Hc'.
    destruct (seq 1 _ !! i) as [wk'|] eqn:Hwk; [|done].
    apply lookup_seq in Hwk as [-> ?]. injection Hc' as <-.
    exists df_people. done.
Qed.

End page_facts.

(** * The claims *)

(** ** The selection of a day *)

Section selection_claims.
Context `{RandomSource}.
Variable df_people : list person.
Variable orang_per_hari max_per_minggu : nat.
Variable larang_berturut : bool.

Lemma tier_loop_NoDup d tiers picks remaining st picks' remaining' st' :
  NoDup (names df_people) → NoDup picks →
  tier_loop df_people max_per_minggu larang_berturut d tiers picks remaining st
    = (picks', remaining', st') →
  NoDup picks'.
Proof.
  intros Hnames. revert picks remaining st.
  induction tiers as [|t tiers IH]; intros picks remaining st Hpicks; simpl.
  - by intros [= <- _ _].
  - case_decide; [by intros [= <- _ _]|].
    pose proof (rng_shuffle_perm (gen st)
      (filter (λ n, quota st !!! n = t
                    ∧ eligible max_per_minggu larang_berturut st n d true = true
                    ∧ n ∉ picks) (names df_people))) as Hperm.
    destruct (rng_shuffle _ _) as [group g]. simpl in Hperm.
    apply IH. apply NoDup_app. split_and!; [done| |].
    + intros n Hn Hn'.
      apply (elem_of_submseteq _ group) in Hn'; [|apply sublist_submseteq, sublist_take].
      rewrite Hperm in Hn'. apply list_elem_of_filter in Hn'. tauto.
    + eapply sublist_NoDup; [|apply sublist_take].
      rewrite Hperm. by apply NoDup_filter.
Qed.

(** C5 (as amended): while the tiers of a day are visited the counts and
    last-day marks stay as they were at the start of the day; what the
    later tiers add is never somebody already in the pick list, because
    each tier's candidates exclude the people picked so far, so with
    distinct roster names the pick list has no repetition; the counts are
    raised afterwards, when the day's picks are recorded, once per pick. *)
Theorem tier_loop_defers_recording d tiers picks remaining st picks' remaining' st' :
  tier_loop df_people max_per_minggu larang_berturut d tiers picks remaining st
    = (picks', remaining', st') →
  quota st' = quota st ∧ last_day st' = last_day st
  ∧ (∃ added, picks' = picks ++ added ∧ ∀ n, n ∈ added → n ∉ picks)
  ∧ (NoDup (names df_people) → NoDup picks → NoDup picks')
  ∧ (∀ n, quota (record_picks d st' picks') !!! n
          = quota st !!! n + length (filter (λ m, m = n) picks')).
Proof.
  intros Hloop.
  pose proof (tier_loop_state _ _ _ _ _ _ _ _ _ _ _ Hloop) as [Hq Hl].
  split_and!; [done..| | |].
  - destruct (tier_loop_added _ _ _ _ _ _ _ _ _ _ _ Hloop) as (added & -> & Hadded).
    exists added. split; [done|]. intros n Hn. by apply Hadded.
  - intros Hnames Hpicks. by eapply tier_loop_NoDup.
  - intros n. by rewrite record_picks_quota, Hq.
Qed.

(** C6: whoever the relaxation adds to the picks is, at that moment, below
    the weekly cap; what it selects does not depend on the last-day marks,
    that is, on the consecutive-day rule. *)
Theorem relaxation_keeps_cap picks remaining st picks' remaining' st' :
  relax df_people max_per_minggu picks remaining st = (picks', remaining', st') →
  ∃ added,
    picks' = picks ++ added
    ∧ (∀ n, n ∈ added → quota st !!! n < max_per_minggu)
    ∧ (∀ marks,
         (relax df_people max_per_minggu picks remaining
            (WeekState (quota st) marks (gen st))).1.1 = picks').
Proof.
  intros Hrelax.
  destruct (relax_added _ _ _ _ _ _ _ _ Hrelax) as (_ & _ & added & -> & Hadded).
  exists added. split_and!; [done|by intros n [? _]%Hadded|].
  intros marks. revert Hrelax. unfold relax. simpl.
  case_decide; [|by intros [= <- _ _]].
  destruct (rng_shuffle _ _) as [group g]. by intros [= <- _ _].
Qed.

(** C10: the loop body raises the shortage error exactly when fewer than
    [orang_per_hari] roster entries are under the cap at the start of the
    day; with at least that many, the tiers and the relaxation together
    fill every slot. *)
Theorem shortage_iff_too_few_under_cap st d :
  (schedule_day df_people orang_per_hari max_per_minggu larang_berturut st d
     = Raise (RuntimeError (shortage_msg d))
   ↔ length (under_cap df_people max_per_minggu st) < orang_per_hari)
  ∧ (orang_per_hari ≤ length (under_cap df_people max_per_minggu st)
     ↔ ∃ picks st',
         select_day df_people orang_per_hari max_per_minggu larang_berturut st d
           = (picks, 0, st')
         ∧ length picks = orang_per_hari).
Proof.
  rewrite schedule_day_shortage.
  destruct (select_day _ _ _ _ _ _) as [[picks remaining] st'] eqn:Hsel.
  apply select_day_spec in Hsel as (_ & Hlen & Hshort & _). simpl.
  split; [done|]. split.
  - intros Hcap. exists picks, st'. assert (remaining = 0) as -> by lia.
    split; [done|lia].
  - intros (picks0 & st0 & [= _ -> _] & _). lia.
Qed.

End selection_claims.

Lemma sample_people_NoDup n : NoDup (names (sample_people n)).
Proof.
  unfold names, sample_people. rewrite <-list_fmap_compose.
  apply NoDup_fmap_2_strong; [|apply NoDup_seq].
  intros i j _ _. simpl. intros Heq%(inj (String.append "P")). by apply (inj pretty).
Qed.

(** C5, witness: the Monday tiers of the sample roster. *)
Lemma tier_loop_defers_recording_witness :
  quota sample_tiers.2 = quota (@init_state counter_source (sample_people 20) 0)
  ∧ NoDup sample_tiers.1.1
  ∧ quota (record_picks sample_monday sample_tiers.2 sample_tiers.1.1) !!! "P1" = 1.
Proof.
  destruct (tier_loop_defers_recording (H:=counter_source) (sample_people 20) 2 true
              sample_monday (seq 0 2) [] 17
              (@init_state counter_source (sample_people 20) 0)
              sample_tiers.1.1 sample_tiers.1.2 sample_tiers.2)
    as (Hq & _ & _ & Hnd & Hrec).
  { vm_compute. reflexivity. }
  split_and!; [exact Hq| |].
  - apply Hnd; [apply sample_people_NoDup|constructor].
  - rewrite Hrec. vm_compute. reflexivity.
Defined.

(** C5, counterexample: "P1" is taken at the first tier of the sample
    Monday, and when the tier loop ends the count of "P1" is not one more
    than before: it is still 0. *)
Lemma tier_loop_count_not_incremented :
  "P1" ∈ sample_tiers.1.1
  ∧ quota sample_tiers.2 !!! "P1" = 0
  ∧ quota sample_tiers.2 !!! "P1"
    ≠ S (quota (@init_state counter_source (sample_people 20) 0) !!! "P1").
Proof.
  split_and!.
  - apply (bool_decide_unpack _). vm_compute. exact I.
  - vm_compute. reflexivity.
  - vm_compute. discriminate.
Qed.

(** C6, witness: on the sample Tuesday the relaxation fills all seventeen
    slots with people below the cap of seven. *)
Lemma relaxation_keeps_cap_witness :
  length sample_relax.1.1 = 17
  ∧ Forall (λ n, quota sample_tuesday_state !!! n < 7) sample_relax.1.1.
Proof.
  destruct (relaxation_keeps_cap (H:=counter_source) (sample_people 17) 7 [] 17
              sample_tuesday_state sample_relax.1.1 sample_relax.1.2 sample_relax.2)
    as (added & Hadded & Hcap & _).
  { vm_compute. reflexivity. }
  split; [vm_compute; reflexivity|].
  rewrite Hadded. apply Forall_forall. exact Hcap.
Defined.

(** On that Tuesday the strict tiers select nobody: the relaxation is what
    fills the day. *)
Example sample_tuesday_tiers_empty :
  (@tier_loop counter_source (sample_people 17) 7 true (sample_monday + 1)%Z
     (seq 0 7) [] 17 sample_tuesday_state).1.1 = [].
Proof. vm_compute. reflexivity. Qed.

(** ** One week *)

Lemma concat_length_uniform {A} (k : nat) (ls : list (list A)) :
  Forall (λ l, length l = k) ls → length (concat ls) = length ls * k.
Proof.
  induction 1 as [|l ls Hl _ IH]; [done|].
  simpl. rewrite length_app, Hl, IH. lia.
Qed.

Section week_claims.
Context `{RandomSource}.
Variable ID_HOLIDAYS : date → bool.
Variable df_people : list person.
Variable orang_per_hari max_per_minggu : nat.
Variable larang_berturut : bool.

(** With unique roster names, every workday of a week that returns has
    exactly [orang_per_hari] people, all distinct. *)
Lemma schedule_one_week_days monday_date random_seed entropy week_df d :
  NoDup (names df_people) →
  schedule_one_week ID_HOLIDAYS df_people orang_per_hari max_per_minggu
    larang_berturut monday_date random_seed entropy = Ok week_df →
  d ∈ workdays_in_week ID_HOLIDAYS monday_date →
  length (used_today week_df d) = orang_per_hari ∧ NoDup (used_today week_df d).
Proof.
  intros Hnd (g & rows & st & by_person & g' & -> & Hdays & _ & Hrepair & _)%schedule_one_week_inv
         (j & Hj)%list_elem_of_lookup_1.
  apply schedule_days_unique in Hdays as (Htables & _); [|done].
  destruct (Forall2_lookup_l _ _ _ _ _ Htables Hj) as (day_df & Hdf & Hlen & Hdistinct & _).
  assert (used_today (concat rows) d = Nama <$> day_df) as Hday.
  { eapply used_today_concat; [|apply workdays_in_week_NoDup|done..].
    eapply Forall2_impl; [done|]. by intros ?? (_ & _ & ?). }
  destruct (repair_pass_days _ _ _ _ _ _ _ Hrepair d) as [Hkeep Hsame].
  rewrite Hday in Hkeep, Hsame. rewrite length_fmap in Hsame.
  split; [lia|auto].
Qed.

(** C1: a week that returns has nobody above the weekly cap, because the
    table the repair pass leaves is checked before it is returned; a table
    with somebody above the cap makes the call raise the assertion error
    instead of returning. *)
Theorem weekly_cap_asserted monday_date random_seed entropy :
  (∀ week_df,
     schedule_one_week ID_HOLIDAYS df_people orang_per_hari max_per_minggu
       larang_berturut monday_date random_seed entropy = Ok week_df →
     ∀ nm, count_nama nm week_df ≤ max_per_minggu)
  ∧ (∀ rows st week_df by_person g,
       schedule_days df_people orang_per_hari max_per_minggu larang_berturut
         (workdays_in_week ID_HOLIDAYS monday_date) []
         (init_state df_people
            match random_seed with None => entropy | Some s => default_rng s end)
       = Ok (rows, st) →
       rows ≠ [] →
       repair_pass df_people max_per_minggu (concat rows) (gen st)
       = Ok (week_df, by_person, g) →
       (∃ nm, max_per_minggu < count_nama nm week_df) →
       schedule_one_week ID_HOLIDAYS df_people orang_per_hari max_per_minggu
         larang_berturut monday_date random_seed entropy
       = Raise (AssertionError "Ada orang > cap mingguan")).
Proof.
  split.
  - intros week_df (g & rows & st & by_person & g' & _ & _ & _ & _ & Hcap)%schedule_one_week_inv.
    by apply cap_holds_spec.
  - intros rows st week_df by_person g Hdays Hrows Hrepair [nm Hnm].
    unfold schedule_one_week. rewrite Hdays. simpl.
    destruct rows as [|day_df rows]; [done|]. simpl in Hrepair |- *.
    rewrite Hrepair. simpl.
    destruct (cap_holds _ _) eqn:Hcap; [|done].
    rewrite cap_holds_spec in Hcap. specialize (Hcap nm). lia.
Qed.

(** C9: in a week that returns, for a roster of unique names, row [i] of
    the [j]-th workday carries number [i+1], the [i]-th pick of that day's
    selection, that person's team and the [i]-th label of the template;
    the table has [orang_per_hari] rows for each workday. *)
Theorem slots_are_positional monday_date random_seed entropy week_df j d i :
  NoDup (names df_people) →
  schedule_one_week ID_HOLIDAYS df_people orang_per_hari max_per_minggu
    larang_berturut monday_date random_seed entropy = Ok week_df →
  workdays_in_week ID_HOLIDAYS monday_date !! j = Some d →
  i < orang_per_hari →
  ∃ rows_j st_j picks st' n team gedung,
    schedule_days df_people orang_per_hari max_per_minggu larang_berturut
      (take j (workdays_in_week ID_HOLIDAYS monday_date)) []
      (init_state df_people
         match random_seed with None => entropy | Some s => default_rng s end)
    = Ok (rows_j, st_j)
    ∧ select_day df_people orang_per_hari max_per_minggu larang_berturut st_j d
      = (picks, 0, st')
    ∧ length picks = orang_per_hari
    ∧ picks !! i = Some n
    ∧ SLOT_TEMPLATE !! i = Some gedung
    ∧ team_of df_people n = Ok team
    ∧ week_df !! (j * orang_per_hari + i) = Some (Row (S i) n (Some team) gedung d)
    ∧ length week_df
      = length (workdays_in_week ID_HOLIDAYS monday_date) * orang_per_hari.
Proof.
  intros Hnd (rows & st & Hdays & ->)%schedule_one_week_unique Hj Hi; [|done].
  pose proof Hdays as (Htables & _)%schedule_days_unique; [|done].
  pose proof Hdays as Hall.
  rewrite <-(take_drop_middle _ _ _ Hj), schedule_days_app in Hdays.
  destruct (schedule_days _ _ _ _ (take j _) _ _) as [[rows_j st_j]|e] eqn:Hpre; [|done].
  rewrite schedule_days_cons in Hdays.
  destruct (schedule_day _ _ _ _ st_j d) as [[day_df st1]|e] eqn:Hday; [|done].
  destruct (schedule_days _ _ _ _ (drop _ _) _ _) as [[rows' st2]|e]; [|done].
  injection Hdays as <- _.
  apply schedule_day_inv in Hday as (picks & st' & Hsel & Hlen & Hdf & _).
  pose proof Hsel as (Hsub & _)%select_day_spec.
  apply build_day_df_unique in Hdf as (Hrows & _ & Hlookup); [|done| |done].
  2:{ intros n Hn. eapply elem_of_submseteq in Hn; [|done].
      by apply list_elem_of_filter in Hn as [_ ?]. }
  destruct (lookup_lt_is_Some_2 picks i) as [n Hn]; [lia|].
  destruct (Hlookup i n Hn) as (team & gedung & Hteam & Hslot & Hrow).
  exists rows_j, st_j, picks, st', n, team, gedung.
  split_and!; [done..| |].
  - assert (length (concat rows_j) = j * orang_per_hari) as Hoffset.
    { apply schedule_days_unique in Hpre as (Hpre & _); [|done].
      rewrite (concat_length_uniform orang_per_hari).
      - apply Forall2_length in Hpre. rewrite <-Hpre, length_take_le; [done|].
        apply lookup_lt_Some in Hj. lia.
      - eapply Forall2_Forall_r; [done|]. apply Forall_forall. by intros ?? ? (? & _). }
    rewrite concat_app. simpl.
    rewrite lookup_app_r by lia. rewrite Hoffset.
    replace (j * orang_per_hari + i - j * orang_per_hari) with i by lia.
    by apply lookup_app_l_Some.
  - rewrite (concat_length_uniform orang_per_hari).
    + by rewrite <-(Forall2_length _ _ _ Htables).
    + eapply Forall2_Forall_r; [done|]. apply Forall_forall. by intros ?? ? (? & _).
Qed.

End week_claims.

(** ** The page *)

Lemma seq_snoc_pos wk : 1 ≤ wk → seq 1 wk = seq 1 (wk - 1) ++ [wk].
Proof.
  intros Hwk. destruct wk as [|wk]; [lia|].
  rewrite seq_S. simpl. by rewrite Nat.sub_0_r.
Qed.

Section page_claims.
Context `{RandomSource}.
Variable ID_HOLIDAYS : date → bool.

(** Duplicate names and a template of another length stop the page before
    the loop: nothing is scheduled. *)
Lemma main_blocks_invalid_roster entropy inp df_people :
  up inp = People df_people →
  ¬ NoDup (names df_people) ∨ length SLOT_TEMPLATE ≠ ui_orang_per_hari inp →
  sched_calls (main ID_HOLIDAYS entropy inp) = []
  ∧ all_weeks (main ID_HOLIDAYS entropy inp) = None.
Proof.
  intros Hup Hbad. unfold main. rewrite Hup.
  destruct (decide (¬ NoDup _)) as [|Hdup]; [done|].
  destruct (decide (length _ ≠ _)) as [|Hlen]; [done|].
  destruct Hbad; done.
Qed.

(** The first week that raises ends the run: its message is shown and no
    table is kept. *)
Lemma main_first_raise entropy inp df_people wk e :
  up inp = People df_people → NoDup (names df_people) →
  length SLOT_TEMPLATE = ui_orang_per_hari inp → generate_clicked inp = true →
  1 ≤ wk ≤ jumlah_minggu inp →
  (∀ wk', 1 ≤ wk' < wk →
     is_ok (run_call ID_HOLIDAYS entropy (week_call inp df_people wk') wk') = true) →
  run_call ID_HOLIDAYS entropy (week_call inp df_people wk) wk = Raise e →
  all_weeks (main ID_HOLIDAYS entropy inp) = None
  ∧ last (st_errors (main ID_HOLIDAYS entropy inp)) = Some (exn_str e)
  ∧ sched_calls (main ID_HOLIDAYS entropy inp) = week_call inp df_people <$> seq 1 wk.
Proof.
  intros Hup Hnd Hlen Hclick Hwk Hpre Hraise. unfold main. rewrite Hup, Hclick.
  rewrite decide_False by (by intros []).
  rewrite decide_False by (by intros []).
  assert (seq 1 (jumlah_minggu inp)
          = seq 1 (wk - 1) ++ wk :: seq (S wk) (jumlah_minggu inp - wk)) as ->.
  { replace (jumlah_minggu inp) with ((wk - 1) + S (jumlah_minggu inp - wk)) at 1 by lia.
    rewrite seq_app. simpl. repeat f_equal; lia. }
  rewrite (generate_first_raise _ _ _ _ _ _ _ _ _ e); [|..|done].
  - simpl. rewrite last_snoc. split_and!; [done..|].
    by rewrite (seq_snoc_pos wk) by lia.
  - apply Forall_forall. intros wk' ?%elem_of_seq. apply Hpre. lia.
Qed.

(** C3: a day whose slots the relaxation cannot fill makes the week raise
    the error that names the day; an error raised by a week ends the whole
    run, which shows the message and keeps no table. *)
Theorem shortage_is_fatal :
  (∀ df_people orang_per_hari max_per_minggu larang_berturut monday_date
     random_seed entropy ds1 d ds2 rows1 st1,
     workdays_in_week ID_HOLIDAYS monday_date = ds1 ++ d :: ds2 →
     schedule_days df_people orang_per_hari max_per_minggu larang_berturut ds1 []
       (init_state df_people
          match random_seed with None => entropy | Some s => default_rng s end)
     = Ok (rows1, st1) →
     0 < (select_day df_people orang_per_hari max_per_minggu larang_berturut st1 d).1.2 →
     schedule_one_week ID_HOLIDAYS df_people orang_per_hari max_per_minggu
       larang_berturut monday_date random_seed entropy
     = Raise (RuntimeError ("Tidak cukup kandidat untuk " +:+ fmt_tanggal_id d +:+ ".")))
  ∧ (∀ entropy inp df_people wk e,
       up inp = People df_people → NoDup (names df_people) →
       length SLOT_TEMPLATE = ui_orang_per_hari inp → generate_clicked inp = true →
       1 ≤ wk ≤ jumlah_minggu inp →
       (∀ wk', 1 ≤ wk' < wk →
          is_ok (run_call ID_HOLIDAYS entropy (week_call inp df_people wk') wk') = true) →
       run_call ID_HOLIDAYS entropy (week_call inp df_people wk) wk = Raise e →
       all_weeks (main ID_HOLIDAYS entropy inp) = None
       ∧ last (st_errors (main ID_HOLIDAYS entropy inp)) = Some (exn_str e)
       ∧ sched_calls (main ID_HOLIDAYS entropy inp)
         = week_call inp df_people <$> seq 1 wk).
Proof.
  split; [|apply main_first_raise].
  intros df_people orang_per_hari max_per_minggu larang_berturut monday_date
    random_seed entropy ds1 d ds2 rows1 st1 Hdays Hpre Hshort.
  unfold schedule_one_week. rewrite Hdays, schedule_days_app, Hpre, schedule_days_cons.
  apply schedule_day_shortage in Hshort. rewrite Hshort. done.
Qed.

(** C2: every call of the scheduler the page makes that returns gives, for
    each workday of its week, exactly [orang_per_hari] people without
    repetition; so does any call on a roster of unique names; the selection
    of a day yields that many distinct picks, and the repair pass keeps
    both the number and the distinctness on every day. *)
Theorem daily_people_distinct :
  (∀ entropy inp i c week_df d,
     sched_calls (main ID_HOLIDAYS entropy inp) !! i = Some c →
     run_call ID_HOLIDAYS entropy c (S i) = Ok week_df →
     d ∈ workdays_in_week ID_HOLIDAYS (c_monday_date c) →
     length (used_today week_df d) = ui_orang_per_hari inp
     ∧ NoDup (used_today week_df d))
  ∧ (∀ df_people orang_per_hari max_per_minggu larang_berturut monday_date
       random_seed entropy week_df d,
       NoDup (names df_people) →
       schedule_one_week ID_HOLIDAYS df_people orang_per_hari max_per_minggu
         larang_berturut monday_date random_seed entropy = Ok week_df →
       d ∈ workdays_in_week ID_HOLIDAYS monday_date →
       length (used_today week_df d) = orang_per_hari ∧ NoDup (used_today week_df d))
  ∧ (∀ df_people orang_per_hari max_per_minggu larang_berturut st d picks st',
       NoDup (names df_people) →
       select_day df_people orang_per_hari max_per_minggu larang_berturut st d
       = (picks, 0, st') →
       length picks = orang_per_hari ∧ NoDup picks)
  ∧ (∀ df_people max_per_minggu wdf g wdf' by_person' g',
       repair_pass df_people max_per_minggu wdf g = Ok (wdf', by_person', g') →
       ∀ day, (NoDup (used_today wdf day) → NoDup (used_today wdf' day))
              ∧ length (used_today wdf' day) = length (used_today wdf day)).
Proof.
  split_and!.
  - intros entropy inp i c week_df d (df_people & _ & Hnd & _ & _ & _ & ->)%main_calls.
    unfold run_call, week_call. simpl. by apply schedule_one_week_days.
  - intros *. apply schedule_one_week_days.
  - intros * Hnd (Hsub & Hlen & _)%select_day_spec. split; [lia|].
    eapply submseteq_NoDup; [done|]. by apply NoDup_filter.
  - intros *. apply repair_pass_days.
Qed.

(** C7: with a seed, the run does not depend on the operating system's
    entropy: two runs on the same input show the same errors, calls and
    tables; the call for week [i+1] is seeded with the base seed plus
    [i+1]. *)
Theorem seeded_runs_agree entropy1 entropy2 inp s :
  seed_value inp = Some s →
  main ID_HOLIDAYS entropy1 inp = main ID_HOLIDAYS entropy2 inp
  ∧ ∀ i c, sched_calls (main ID_HOLIDAYS entropy1 inp) !! i = Some c →
           c_random_seed c = Some (s + Z.of_nat (S i))%Z.
Proof.
  intros Hseed. split; [by eapply main_seeded|].
  intros i c (df_people & _ & _ & _ & _ & _ & ->)%main_calls.
  unfold week_call. simpl. by rewrite Hseed.
Qed.

(** C8: in a seeded run that completes, the table of week [wk] is the
    concatenation of the day tables computed, for the Monday [wk - 1] weeks
    after the start date, from the initial state seeded with the base seed
    plus [wk]: it depends on nothing another week produced. In that initial
    state every count is 0 and nobody has a last day, so on the first day
    of a week the consecutive-day rule excludes nobody. *)
Theorem weeks_are_independent entropy inp s weeks :
  seed_value inp = Some s →
  all_weeks (main ID_HOLIDAYS entropy inp) = Some weeks →
  ∃ df_people,
    up inp = People df_people
    ∧ length weeks = jumlah_minggu inp
    ∧ (∀ wk, 1 ≤ wk ≤ jumlah_minggu inp →
         ∃ rows st,
           schedule_days df_people (ui_orang_per_hari inp) (ui_max_per_minggu inp)
             (ui_larang_berturut inp)
             (workdays_in_week ID_HOLIDAYS
                (start_date_choice inp + (Z.of_nat wk - 1) * 7)%Z) []
             (init_state df_people (default_rng (s + Z.of_nat wk)%Z))
           = Ok (rows, st)
           ∧ weeks !! (wk - 1) = Some (wk, concat rows))
    ∧ (∀ g nm d strict,
         quota (init_state df_people g) !!! nm = 0
         ∧ last_day (init_state df_people g) !!! nm = None
         ∧ eligible (ui_max_per_minggu inp) (ui_larang_berturut inp)
             (init_state df_people g) nm d strict
           = bool_decide (0 < ui_max_per_minggu inp)).
Proof.
  intros Hseed. unfold main. destruct (up inp) as [| |df_people]; [done..|].
  destruct (decide (¬ NoDup _)) as [|Hdup]; [done|].
  destruct (decide (length _ ≠ _)) as [|Hlen]; [done|].
  destruct (generate_clicked inp); [|done]. apply dec_stable in Hdup.
  destruct (generate _ _ _ _ _ _ _) as [calls [weeks'|e]] eqn:Hgen; [|done].
  simpl. intros [= ->].
  apply generate_ok in Hgen as (_ & tables & -> & Htables). simpl.
  exists df_people. split_and!; [done| | |].
  - rewrite length_zip_with, length_seq, <-(Forall2_length _ _ _ Htables), length_seq. lia.
  - intros wk Hwk.
    assert (seq 1 (jumlah_minggu inp) !! (wk - 1) = Some wk) as Hlookup.
    { apply lookup_seq. lia. }
    destruct (Forall2_lookup_l _ _ _ _ _ Htables Hlookup) as (week_df & Hdf & Hcall).
    unfold run_call, week_call in Hcall. simpl in Hcall. rewrite Hseed in Hcall.
    apply schedule_one_week_unique in Hcall as (rows & st & Hdays & ->); [|done].
    exists rows, st. split; [done|].
    apply lookup_zip_with_Some. by exists wk, (concat rows).
  - intros g nm d strict.
    pose proof (init_state_quota df_people g nm) as Hq.
    pose proof (init_state_last_day df_people g nm) as Hl.
    split_and!; [done..|].
    unfold eligible. rewrite Hq, Hl.
    destruct (ui_larang_berturut inp), strict; simpl;
      case_decide; case_bool_decide; (done || lia).
Qed.

End page_claims.

(** ** The claims on sample runs *)

Lemma monday_near_future_is_monday today :
  weekday (monday_near_future today) = 0%Z
  ∧ (today ≤ monday_near_future today < today + 7)%Z.
Proof. unfold monday_near_future, weekday. Z.div_mod_to_equations. lia. Qed.

Example date_formats :
  fmt_tanggal_id sample_monday = "Senin, 6 Januari 2025"
  ∧ fmt_tanggal_id 738945%Z = "Kamis, 29 Februari 2024"
  ∧ fmt_tanggal_id 730485%Z = "Minggu, 31 Desember 2000".
Proof. vm_compute. done. Qed.

(** C1, witness: the sample week returns and nobody of its roster has more
    than two rows. *)
Lemma weekly_cap_asserted_witness :
  is_ok sample_week = true
  ∧ Forall (λ p, count_nama (p_Nama p) (returned [] sample_week) ≤ 2) (sample_people 43).
Proof.
  split; [vm_compute; reflexivity|].
  apply Forall_forall. intros p _.
  apply (proj1 (weekly_cap_asserted (H:=counter_source) no_holiday (sample_people 43)
                  17 2 true sample_monday (Some 42%Z) 0) (returned [] sample_week)).
  vm_compute. reflexivity.
Defined.

(** The assertion is reachable: on the roster that lists "P1" twice, in a
    week whose only workday is Tuesday, "P1" gets four rows and nobody can
    replace them. *)
Example repeated_name_fails_assertion :
  @schedule_one_week counter_source (λ d, negb (bool_decide (d = sample_monday + 1)%Z))
    repeated_people 17 2 true sample_monday (Some 42%Z) 0
  = Raise (AssertionError "Ada orang > cap mingguan").
Proof. vm_compute. reflexivity. Qed.

(** Outside the roster invariant: when the roster lists "P1" twice, a week
    can return with nineteen rows on its Monday and a repeated name among
    them; the page never passes such a roster on. *)
Example repeated_name_repeats_on_a_day :
  is_ok repeated_week = true
  ∧ length (used_today (returned [] repeated_week) sample_monday) = 19
  ∧ ¬ NoDup (used_today (returned [] repeated_week) sample_monday).
Proof.
  split_and!; [vm_compute; reflexivity..|].
  apply (bool_decide_unpack _). vm_compute. exact I.
Qed.

(** C2, witness: Wednesday of the sample week. *)
Lemma daily_people_distinct_witness :
  length (used_today (returned [] sample_week) (sample_monday + 2)%Z) = 17
  ∧ NoDup (used_today (returned [] sample_week) (sample_monday + 2)%Z).
Proof.
  apply (proj1 (proj2 (daily_people_distinct (H:=counter_source) no_holiday))
           (sample_people 43) 17 2 true sample_monday (Some 42%Z) 0).
  - apply sample_people_NoDup.
  - vm_compute. reflexivity.
  - apply (bool_decide_unpack _). vm_compute. exact I.
Defined.

(** C9, witness: the fourth row of Tuesday in the sample week. *)
Lemma slots_are_positional_witness :
  ∃ n team,
    returned [] sample_week !! 20
    = Some (Row 4 n (Some team) "A 10,12 FG A" (sample_monday + 1)%Z)
    ∧ team_of (sample_people 43) n = Ok team.
Proof.
  destruct (slots_are_positional (H:=counter_source) no_holiday (sample_people 43)
              17 2 true sample_monday (Some 42%Z) 0 (returned [] sample_week)
              1 (sample_monday + 1)%Z 3)
    as (_ & _ & picks & _ & n & team & gedung & _ & _ & _ & _ & Hslot & Hteam & Hrow & _).
  - apply sample_people_NoDup.
  - vm_compute. reflexivity.
  - vm_compute. reflexivity.
  - lia.
  - injection Hslot as <-. exists n, team. split; [exact Hrow|exact Hteam].
Defined.

(** C3, witness: forty-two people, the sample Monday off. The first week
    has four workdays and is scheduled; in the second the Friday cannot be
    filled, and the run ends with that day's message and no table. *)
Lemma shortage_is_fatal_witness :
  all_weeks (main monday_off sample_entropy (sample_input (Some 42%Z) 42 sample_monday))
  = None
  ∧ last (st_errors (main monday_off sample_entropy
                       (sample_input (Some 42%Z) 42 sample_monday)))
    = Some "Tidak cukup kandidat untuk Jumat, 17 Januari 2025.".
Proof.
  destruct (shortage_is_fatal (H:=counter_source) monday_off) as [Hweek Hrun].
  pose (ds1 := take 4 (workdays_in_week monday_off (sample_monday + 7)%Z)).
  pose (pre := returned ([], @init_state counter_source (sample_people 42) 0)
                 (@schedule_days counter_source (sample_people 42) 17 2 true ds1 []
                    (@init_state counter_source (sample_people 42) (default_rng 44%Z)))).
  specialize (Hweek (sample_people 42) 17 2 true (sample_monday + 7)%Z (Some 44%Z) 0
                ds1 (sample_monday + 11)%Z [] pre.1 pre.2).
  destruct (Hrun sample_entropy (sample_input (Some 42%Z) 42 sample_monday)
              (sample_people 42) 2
              (RuntimeError ("Tidak cukup kandidat untuk "
                             +:+ fmt_tanggal_id (sample_monday + 11)%Z +:+ ".")))
    as (Hnone & Hlast & _).
  - reflexivity.
  - apply sample_people_NoDup.
  - reflexivity.
  - reflexivity.
  - simpl. lia.
  - intros wk' Hwk'. assert (wk' = 1) as -> by lia. vm_compute. reflexivity.
  - apply Hweek.
    + vm_compute. reflexivity.
    + vm_compute. reflexivity.
    + vm_compute. lia.
  - split; [exact Hnone|]. rewrite Hlast. vm_compute. reflexivity.
Defined.

(** C7, witness: the seeded sample run under two entropy sources. *)
Lemma seeded_runs_agree_witness :
  main no_holiday sample_entropy (sample_input (Some 42%Z) 43 sample_monday)
  = main no_holiday other_entropy (sample_input (Some 42%Z) 43 sample_monday)
  ∧ c_random_seed <$> sched_calls (main no_holiday sample_entropy
                                     (sample_input (Some 42%Z) 43 sample_monday)) !! 1
    = Some (Some 44%Z).
Proof.
  destruct (seeded_runs_agree (H:=counter_source) no_holiday sample_entropy other_entropy
              (sample_input (Some 42%Z) 43 sample_monday) 42%Z eq_refl) as [Hsame Hseeds].
  split; [exact Hsame|].
  destruct (sched_calls _ !! 1) as [c|] eqn:Hc.
  - simpl. f_equal. exact (Hseeds 1 c Hc).
  - exfalso. revert Hc. vm_compute. discriminate.
Defined.

(** Without a seed the entropy decides: two sources give two schedules. *)
Example unseeded_runs_differ :
  main no_holiday sample_entropy (sample_input None 43 sample_monday)
  ≠ main (H:=counter_source) no_holiday other_entropy (sample_input None 43 sample_monday).
Proof. vm_compute. discriminate. Qed.

(** C8, witness: the second week of the seeded sample run. *)
Lemma weeks_are_independent_witness :
  ∃ weeks rows st,
    all_weeks (main no_holiday sample_entropy (sample_input (Some 42%Z) 43 sample_monday))
    = Some weeks
    ∧ @schedule_days counter_source (sample_people 43) 17 2 true
        (workdays_in_week no_holiday (sample_monday + 7)%Z) []
        (init_state (sample_people 43) (default_rng 44%Z))
      = Ok (rows, st)
    ∧ weeks !! 1 = Some (2, concat rows).
Proof.
  pose (weeks := default [] (all_weeks (main (H:=counter_source) no_holiday sample_entropy
                                         (sample_input (Some 42%Z) 43 sample_monday)))).
  destruct (weeks_are_independent (H:=counter_source) no_holiday sample_entropy
              (sample_input (Some 42%Z) 43 sample_monday) 42%Z weeks eq_refl)
    as (df_people & Hup & _ & Hweeks & _).
  { vm_compute. reflexivity. }
  injection Hup as <-.
  destruct (Hweeks 2) as (rows & st & Hdays & Hlookup); [simpl; lia|].
  exists weeks, rows, st. split_and!.
  - vm_compute. reflexivity.
  - exact Hdays.
  - exact Hlookup.
Defined.

(** C4, the failing run: the start date is a Tuesday; the page shows that
    the start must be a Monday, and schedules the week all the same. *)
Theorem non_monday_start_is_scheduled :
  widget_bounds tuesday_input
  ∧ weekday (start_date_choice tuesday_input) = 1%Z
  ∧ st_errors (main no_holiday sample_entropy tuesday_input)
    = ["Tanggal mulai harus hari Senin."]
  ∧ c_monday_date <$> sched_calls (main no_holiday sample_entropy tuesday_input)
    = [(sample_monday + 1)%Z]
  ∧ is_Some (all_weeks (main no_holiday sample_entropy tuesday_input)).
Proof.
  split_and!; [|vm_compute; reflexivity..|].
  - unfold widget_bounds. simpl. lia.
  - apply (bool_decide_unpack _). vm_compute. exact I.
Qed.
